(** * SEO meta-tag analyzer: the scoring pass of [script.js]

    A shallow embedding of [SEOAnalyzer.analyzeSEO] (script.js, lines
    673-906) together with the record that [parseMetaTags] builds for it
    (lines 617-655), and the properties of the scoring rubric.

    Modelling conventions.
    - JavaScript numbers are modelled by [Z]: every number the function
      manipulates is a small non-negative integer (a counter, a length or a
      sum of literals), far below 2^53, so double arithmetic is exact.
    - JavaScript strings are modelled by [string]; one character stands for
      one UTF-16 code unit, so that [String.length] is the [.length]
      property.  A string is truthy exactly when it is not the empty string.
    - The function mutates five local variables and one local object in
      sequence.  The embedding threads them through a record [State]; every
      [if]/[else] block of the source is one state transformer.

    The second part covers the rest of the file: [normalizeUrl],
    [extractStructuredData], the earlier [analyzeSEO] (lines 149-327),
    [displayCategorySummaries], the previews of [displayResults] and one
    run of [analyzeWebsite] over the part of the page it writes.  What the
    browser provides ([JSON.parse], the [URL] parser, the network, the
    document) is a parameter of the definitions that use it. *)

From Stdlib Require Import ZArith List Ascii String Bool Lia.
From Stdlib Require Import DecimalString QArith Qround.
Import ListNotations.

Local Open Scope string_scope.
Local Open Scope Z_scope.

(** ** Data model *)

(** The parsed content of a [script type="application/ld+json"] block.  The
    scoring pass only looks at how many blocks there are. *)
#[local] Unset Elimination Schemes.
Inductive JsonValue : Type :=
| JNull
| JBool (b : bool)
| JNumber (literal : string)
| JString (s : string)
| JArray (elements : list JsonValue)
| JObject (members : list (string * JsonValue)).
#[local] Set Elimination Schemes.

(** The object literal built by [parseMetaTags]. *)
Record MetaTags : Type := mkMetaTags {
  title : string;
  description : string;
  keywords : string;
  canonical : string;
  robots : string;
  viewport : string;
  charset : string;
  ogTitle : string;
  ogDescription : string;
  ogImage : string;
  ogUrl : string;
  ogType : string;
  ogSiteName : string;
  twitterCard : string;
  twitterTitle : string;
  twitterDescription : string;
  twitterImage : string;
  twitterSite : string;
  author : string;
  language : string;
  structuredData : list JsonValue
}.

(** The three values of an item's [type] property. *)
Inductive ItemType : Type := passed_t | warning_t | error_t.

Definition ItemType_eqb (a b : ItemType) : bool :=
  match a, b with
  | passed_t, passed_t | warning_t, warning_t | error_t, error_t => true
  | _, _ => false
  end.

(** The [item] object literals: [{ type, title, description }]. *)
Record Item : Type := mkItem {
  type : ItemType;
  item_title : string;
  item_description : string
}.

(** One entry of [categoryScores]: [{ score, maxScore, items }]. *)
Record CategoryScore : Type := mkCategoryScore {
  score : Z;
  maxScore : Z;
  items : list Item
}.

(** The [categoryScores] object, with its four fixed properties. *)
Record CategoryScores : Type := mkCategoryScores {
  basicSeo : CategoryScore;
  socialMedia : CategoryScore;
  technicalSeo : CategoryScore;
  contentQuality : CategoryScore
}.

(** The local variables of [analyzeSEO]. *)
Record State : Type := mkState {
  st_analysis : list Item;
  st_score : Z;
  st_passed : Z;
  st_warnings : Z;
  st_errors : Z;
  st_categoryScores : CategoryScores
}.

(** The object returned by [analyzeSEO]. *)
Record Analysis : Type := mkAnalysis {
  an_score : Z;
  an_passed : Z;
  an_warnings : Z;
  an_errors : Z;
  an_items : list Item;
  an_categoryScores : CategoryScores
}.

(** ** JavaScript primitives used by the function *)

(** Truthiness of a string: [if (s)]. *)
Definition truthy (s : string) : bool :=
  match s with
  | EmptyString => false
  | String _ _ => true
  end.

(** The [.length] property of a string and of an array. *)
Definition str_length (s : string) : Z := Z.of_nat (String.length s).
Definition arr_length {A : Type} (l : list A) : Z := Z.of_nat (List.length l).

(** [${n}] in a template literal, for a non-negative integer [n]. *)
Definition num_to_string (n : Z) : string :=
  NilEmpty.string_of_uint (N.to_uint (Z.to_N n)).

(** ** The mutations performed in each branch *)

(** [analysis.push(item)] *)
Definition push_analysis (it : Item) (s : State) : State :=
  mkState (st_analysis s ++ [it]) (st_score s) (st_passed s) (st_warnings s)
          (st_errors s) (st_categoryScores s).

(** [score += n] *)
Definition add_score (n : Z) (s : State) : State :=
  mkState (st_analysis s) (st_score s + n) (st_passed s) (st_warnings s)
          (st_errors s) (st_categoryScores s).

(** [passed++], [warnings++], [errors++] *)
Definition incr_passed (s : State) : State :=
  mkState (st_analysis s) (st_score s) (st_passed s + 1) (st_warnings s)
          (st_errors s) (st_categoryScores s).
Definition incr_warnings (s : State) : State :=
  mkState (st_analysis s) (st_score s) (st_passed s) (st_warnings s + 1)
          (st_errors s) (st_categoryScores s).
Definition incr_errors (s : State) : State :=
  mkState (st_analysis s) (st_score s) (st_passed s) (st_warnings s)
          (st_errors s + 1) (st_categoryScores s).

(** The four properties of [categoryScores]. *)
Inductive Category : Type := BasicSeo | SocialMedia | TechnicalSeo | ContentQuality.

Definition get_category (c : Category) (cs : CategoryScores) : CategoryScore :=
  match c with
  | BasicSeo => basicSeo cs
  | SocialMedia => socialMedia cs
  | TechnicalSeo => technicalSeo cs
  | ContentQuality => contentQuality cs
  end.

Definition set_category (c : Category) (v : CategoryScore) (cs : CategoryScores)
  : CategoryScores :=
  match c with
  | BasicSeo => mkCategoryScores v (socialMedia cs) (technicalSeo cs) (contentQuality cs)
  | SocialMedia => mkCategoryScores (basicSeo cs) v (technicalSeo cs) (contentQuality cs)
  | TechnicalSeo => mkCategoryScores (basicSeo cs) (socialMedia cs) v (contentQuality cs)
  | ContentQuality => mkCategoryScores (basicSeo cs) (socialMedia cs) (technicalSeo cs) v
  end.

Definition update_category (c : Category) (f : CategoryScore -> CategoryScore)
  (s : State) : State :=
  mkState (st_analysis s) (st_score s) (st_passed s) (st_warnings s) (st_errors s)
          (set_category c (f (get_category c (st_categoryScores s)))
                        (st_categoryScores s)).

(** [categoryScores.c.items.push(item)] *)
Definition push_category_item (c : Category) (it : Item) : State -> State :=
  update_category c (fun cs => mkCategoryScore (score cs) (maxScore cs) (items cs ++ [it])).

(** [categoryScores.c.score += n] *)
Definition add_category_score (c : Category) (n : Z) : State -> State :=
  update_category c (fun cs => mkCategoryScore (score cs + n) (maxScore cs) (items cs)).

(** Statement sequencing, written left to right. *)
Definition seq (f g : State -> State) : State -> State := fun s => g (f s).
Notation "f ;; g" := (seq f g) (at level 61, right associativity).
Definition skip : State -> State := fun s => s.

(** ** The eight checks of [analyzeSEO], in source order *)

(** Title analysis (Basic SEO), lines 688-722.  The inner [else if] has no
    [else] of its own: when it fails nothing is pushed. *)
Definition title_check (metaTags : MetaTags) : State -> State :=
  if truthy (title metaTags) then
    if (str_length (title metaTags) >=? 30) && (str_length (title metaTags) <=? 60) then
      let item := mkItem passed_t "Title Tag Length"
        ("Perfect! Title is " ++ num_to_string (str_length (title metaTags))
           ++ " characters (30-60 recommended).") in
      push_analysis item ;; push_category_item BasicSeo item ;;
      add_category_score BasicSeo 15 ;; add_score 15 ;; incr_passed
    else if str_length (title metaTags) >? 0 then
      let item := mkItem warning_t "Title Tag Length"
        ("Title is " ++ num_to_string (str_length (title metaTags))
           ++ " characters. Recommended: 30-60 characters.") in
      push_analysis item ;; push_category_item BasicSeo item ;;
      add_category_score BasicSeo 8 ;; add_score 8 ;; incr_warnings
    else skip
  else
    let item := mkItem error_t "Missing Title Tag"
      "Title tag is missing. This is crucial for SEO." in
    push_analysis item ;; push_category_item BasicSeo item ;; incr_errors.

(** Meta description analysis (Basic SEO), lines 724-758. *)
Definition description_check (metaTags : MetaTags) : State -> State :=
  if truthy (description metaTags) then
    if (str_length (description metaTags) >=? 120)
       && (str_length (description metaTags) <=? 160) then
      let item := mkItem passed_t "Meta Description Length"
        ("Perfect! Description is " ++ num_to_string (str_length (description metaTags))
           ++ " characters (120-160 recommended).") in
      push_analysis item ;; push_category_item BasicSeo item ;;
      add_category_score BasicSeo 15 ;; add_score 15 ;; incr_passed
    else if str_length (description metaTags) >? 0 then
      let item := mkItem warning_t "Meta Description Length"
        ("Description is " ++ num_to_string (str_length (description metaTags))
           ++ " characters. Recommended: 120-160 characters.") in
      push_analysis item ;; push_category_item BasicSeo item ;;
      add_category_score BasicSeo 8 ;; add_score 8 ;; incr_warnings
    else skip
  else
    let item := mkItem error_t "Missing Meta Description"
      "Meta description is missing. This affects click-through rates." in
    push_analysis item ;; push_category_item BasicSeo item ;; incr_errors.

(** Open Graph analysis (Social Media), lines 760-781. *)
Definition open_graph_check (metaTags : MetaTags) : State -> State :=
  if truthy (ogTitle metaTags) && truthy (ogDescription metaTags) then
    let item := mkItem passed_t "Open Graph Tags"
      "Open Graph title and description are present for social media sharing." in
    push_analysis item ;; push_category_item SocialMedia item ;;
    add_category_score SocialMedia 15 ;; add_score 10 ;; incr_passed
  else
    let item := mkItem warning_t "Open Graph Tags"
      "Missing Open Graph tags. These improve social media sharing appearance." in
    push_analysis item ;; push_category_item SocialMedia item ;; incr_warnings.

(** Twitter Card analysis (Social Media), lines 783-804. *)
Definition twitter_card_check (metaTags : MetaTags) : State -> State :=
  if truthy (twitterCard metaTags) then
    let item := mkItem passed_t "Twitter Card"
      "Twitter Card meta tag is present." in
    push_analysis item ;; push_category_item SocialMedia item ;;
    add_category_score SocialMedia 10 ;; add_score 5 ;; incr_passed
  else
    let item := mkItem warning_t "Twitter Card"
      "Twitter Card meta tag is missing." in
    push_analysis item ;; push_category_item SocialMedia item ;; incr_warnings.

(** Canonical URL analysis (Technical SEO), lines 806-827. *)
Definition canonical_check (metaTags : MetaTags) : State -> State :=
  if truthy (canonical metaTags) then
    let item := mkItem passed_t "Canonical URL"
      "Canonical URL is specified, helping prevent duplicate content issues." in
    push_analysis item ;; push_category_item TechnicalSeo item ;;
    add_category_score TechnicalSeo 10 ;; add_score 10 ;; incr_passed
  else
    let item := mkItem warning_t "Canonical URL"
      "Canonical URL is missing. Consider adding it to prevent duplicate content issues." in
    push_analysis item ;; push_category_item TechnicalSeo item ;; incr_warnings.

(** Viewport meta tag analysis (Technical SEO), lines 829-850. *)
Definition viewport_check (metaTags : MetaTags) : State -> State :=
  if truthy (viewport metaTags) then
    let item := mkItem passed_t "Mobile Viewport"
      "Viewport meta tag is present for mobile optimization." in
    push_analysis item ;; push_category_item TechnicalSeo item ;;
    add_category_score TechnicalSeo 10 ;; add_score 5 ;; incr_passed
  else
    let item := mkItem error_t "Missing Viewport Tag"
      "Viewport meta tag is missing. This affects mobile usability." in
    push_analysis item ;; push_category_item TechnicalSeo item ;; incr_errors.

(** The double-quote character of the language message. *)
Definition dquote : string := String (Ascii.ascii_of_nat 34) EmptyString.

(** Language attribute analysis (Content Quality), lines 852-873. *)
Definition language_check (metaTags : MetaTags) : State -> State :=
  if truthy (language metaTags) then
    let item := mkItem passed_t "Language Declaration"
      ("Language is declared as " ++ dquote ++ language metaTags ++ dquote ++ ".") in
    push_analysis item ;; push_category_item ContentQuality item ;;
    add_category_score ContentQuality 5 ;; add_score 5 ;; incr_passed
  else
    let item := mkItem warning_t "Language Declaration"
      "HTML lang attribute is missing. This helps search engines understand content language." in
    push_analysis item ;; push_category_item ContentQuality item ;; incr_warnings.

(** Structured data analysis (Technical SEO), lines 875-896. *)
Definition structured_data_check (metaTags : MetaTags) : State -> State :=
  if arr_length (structuredData metaTags) >? 0 then
    let item := mkItem passed_t "Structured Data"
      ("Found " ++ num_to_string (arr_length (structuredData metaTags))
         ++ " structured data block(s). Great for rich snippets!") in
    push_analysis item ;; push_category_item TechnicalSeo item ;;
    add_category_score TechnicalSeo 10 ;; add_score 10 ;; incr_passed
  else
    let item := mkItem warning_t "Structured Data"
      "No structured data found. Consider adding Schema.org markup for rich snippets." in
    push_analysis item ;; push_category_item TechnicalSeo item ;; incr_warnings.

(** ** [analyzeSEO] *)

(** Lines 674-686: the declarations at the top of the function. *)
Definition initial_categoryScores : CategoryScores :=
  mkCategoryScores (mkCategoryScore 0 30 []) (mkCategoryScore 0 25 [])
                   (mkCategoryScore 0 30 []) (mkCategoryScore 0 15 []).

Definition initial_state : State :=
  mkState [] 0 0 0 0 initial_categoryScores.

(** Lines 898-905: the returned object. *)
Definition result_of (s : State) : Analysis :=
  mkAnalysis (Z.min 100 (st_score s)) (st_passed s) (st_warnings s) (st_errors s)
             (st_analysis s) (st_categoryScores s).

(** [analyzeSEO(metaTags, url)]; the second parameter is never read. *)
Definition analyzeSEO (metaTags : MetaTags) (url : string) : Analysis :=
  result_of
    ((title_check metaTags ;; description_check metaTags ;;
      open_graph_check metaTags ;; twitter_card_check metaTags ;;
      canonical_check metaTags ;; viewport_check metaTags ;;
      language_check metaTags ;; structured_data_check metaTags)
       initial_state).

(** ** The checks as an ordered list of rules *)

Inductive Rule : Type :=
| RuleTitle | RuleDescription | RuleOpenGraph | RuleTwitterCard
| RuleCanonical | RuleViewport | RuleLanguage | RuleStructuredData.

Definition check_of (r : Rule) : MetaTags -> State -> State :=
  match r with
  | RuleTitle => title_check
  | RuleDescription => description_check
  | RuleOpenGraph => open_graph_check
  | RuleTwitterCard => twitter_card_check
  | RuleCanonical => canonical_check
  | RuleViewport => viewport_check
  | RuleLanguage => language_check
  | RuleStructuredData => structured_data_check
  end.

(** The order in which the blocks appear in the body of [analyzeSEO]. *)
Definition rule_order : list Rule :=
  [RuleTitle; RuleDescription; RuleOpenGraph; RuleTwitterCard;
   RuleCanonical; RuleViewport; RuleLanguage; RuleStructuredData].

Fixpoint run_checks (rs : list Rule) (metaTags : MetaTags) (s : State) : State :=
  match rs with
  | [] => s
  | r :: rs' => run_checks rs' metaTags (check_of r metaTags s)
  end.

(** The check that pushes an item, read off the item's [title] property:
    the source uses a distinct set of titles in each block. *)
Definition rule_of_item (it : Item) : option Rule :=
  let t := item_title it in
  if String.eqb t "Title Tag Length" || String.eqb t "Missing Title Tag" then Some RuleTitle
  else if String.eqb t "Meta Description Length" || String.eqb t "Missing Meta Description"
    then Some RuleDescription
  else if String.eqb t "Open Graph Tags" then Some RuleOpenGraph
  else if String.eqb t "Twitter Card" then Some RuleTwitterCard
  else if String.eqb t "Canonical URL" then Some RuleCanonical
  else if String.eqb t "Mobile Viewport" || String.eqb t "Missing Viewport Tag" then Some RuleViewport
  else if String.eqb t "Language Declaration" then Some RuleLanguage
  else if String.eqb t "Structured Data" then Some RuleStructuredData
  else None.

(** What a single check adds to [score] and to the category scores, measured
    by running its block on the freshly initialised variables. *)
Definition direct_points (r : Rule) (metaTags : MetaTags) : Z :=
  st_score (check_of r metaTags initial_state).

Definition category_total (cs : CategoryScores) : Z :=
  score (basicSeo cs) + score (socialMedia cs)
  + score (technicalSeo cs) + score (contentQuality cs).

Definition category_points (r : Rule) (metaTags : MetaTags) : Z :=
  category_total (st_categoryScores (check_of r metaTags initial_state)).

(** The [type] of the item found at a position of the returned [items]. *)
Definition type_at (a : Analysis) (i : nat) : option ItemType :=
  option_map type (nth_error (an_items a) i).

(** ** The rubric as the specification tabulates it

    These definitions follow the rule table of the specification (section
    4.1); they are compared with the source below. *)

(** Column "Direct score". *)
Definition spec_direct_score (r : Rule) (k : ItemType) : Z :=
  match r, k with
  | RuleTitle, passed_t => 15
  | RuleTitle, warning_t => 8
  | RuleDescription, passed_t => 15
  | RuleDescription, warning_t => 8
  | RuleOpenGraph, passed_t => 10
  | RuleTwitterCard, passed_t => 5
  | RuleCanonical, passed_t => 10
  | RuleViewport, passed_t => 5
  | RuleLanguage, passed_t => 5
  | RuleStructuredData, passed_t => 10
  | _, _ => 0
  end.

(** Column "Category / category points". *)
Definition spec_category (r : Rule) : Category :=
  match r with
  | RuleTitle | RuleDescription => BasicSeo
  | RuleOpenGraph | RuleTwitterCard => SocialMedia
  | RuleCanonical | RuleViewport | RuleStructuredData => TechnicalSeo
  | RuleLanguage => ContentQuality
  end.

Definition spec_category_points (r : Rule) (k : ItemType) : Z :=
  match r, k with
  | RuleTitle, passed_t => 15
  | RuleTitle, warning_t => 8
  | RuleDescription, passed_t => 15
  | RuleDescription, warning_t => 8
  | RuleOpenGraph, passed_t => 15
  | RuleTwitterCard, passed_t => 10
  | RuleCanonical, passed_t => 10
  | RuleViewport, passed_t => 10
  | RuleLanguage, passed_t => 5
  | RuleStructuredData, passed_t => 10
  | _, _ => 0
  end.

Definition Category_eqb (a b : Category) : bool :=
  match a, b with
  | BasicSeo, BasicSeo | SocialMedia, SocialMedia
  | TechnicalSeo, TechnicalSeo | ContentQuality, ContentQuality => true
  | _, _ => false
  end.

(** The direct score contribution of a finding, and its sum over findings. *)
Definition item_direct_score (it : Item) : Z :=
  match rule_of_item it with
  | Some r => spec_direct_score r (type it)
  | None => 0
  end.

Definition direct_total (its : list Item) : Z :=
  fold_right (fun it acc => item_direct_score it + acc) 0 its.

(** The category points of a finding that count towards category [c]. *)
Definition item_category_points (c : Category) (it : Item) : Z :=
  match rule_of_item it with
  | Some r => if Category_eqb c (spec_category r)
              then spec_category_points r (type it) else 0
  | None => 0
  end.

Definition category_points_total (c : Category) (its : list Item) : Z :=
  fold_right (fun it acc => item_category_points c it + acc) 0 its.

(** Number of findings of a given kind. *)
Definition kind_count (k : ItemType) (it : Item) : Z :=
  if ItemType_eqb k (type it) then 1 else 0.

Definition count_kind (k : ItemType) (its : list Item) : Z :=
  fold_right (fun it acc => kind_count k it + acc) 0 its.

(** ** Inputs used in the scenarios *)

Definition empty_tags : MetaTags :=
  mkMetaTags EmptyString EmptyString EmptyString EmptyString EmptyString
             EmptyString EmptyString EmptyString EmptyString EmptyString
             EmptyString EmptyString EmptyString EmptyString EmptyString
             EmptyString EmptyString EmptyString EmptyString EmptyString [].

(** A record with the [viewport] property replaced. *)
Definition with_viewport (v : string) (m : MetaTags) : MetaTags :=
  mkMetaTags (title m) (description m) (keywords m) (canonical m) (robots m)
             v (charset m) (ogTitle m) (ogDescription m) (ogImage m)
             (ogUrl m) (ogType m) (ogSiteName m) (twitterCard m) (twitterTitle m)
             (twitterDescription m) (twitterImage m) (twitterSite m) (author m)
             (language m) (structuredData m).

Definition viewport_only : MetaTags := with_viewport "w" empty_tags.

(** A record with the [title], respectively [description], property replaced. *)
Definition with_title (v : string) (m : MetaTags) : MetaTags :=
  mkMetaTags v (description m) (keywords m) (canonical m) (robots m)
             (viewport m) (charset m) (ogTitle m) (ogDescription m) (ogImage m)
             (ogUrl m) (ogType m) (ogSiteName m) (twitterCard m) (twitterTitle m)
             (twitterDescription m) (twitterImage m) (twitterSite m) (author m)
             (language m) (structuredData m).

Definition with_description (v : string) (m : MetaTags) : MetaTags :=
  mkMetaTags (title m) v (keywords m) (canonical m) (robots m)
             (viewport m) (charset m) (ogTitle m) (ogDescription m) (ogImage m)
             (ogUrl m) (ogType m) (ogSiteName m) (twitterCard m) (twitterTitle m)
             (twitterDescription m) (twitterImage m) (twitterSite m) (author m)
             (language m) (structuredData m).

(** A string of [n] copies of one character. *)
Fixpoint repeat_char (c : Ascii.ascii) (n : nat) : string :=
  match n with
  | O => EmptyString
  | S n' => String c (repeat_char c n')
  end.

(** The all-passing scenario of the specification. *)
Definition full_tags : MetaTags :=
  mkMetaTags (repeat_char "A"%char 45) (repeat_char "B"%char 140) EmptyString "https://e.com"
             EmptyString "width=device-width" EmptyString "x" "y" EmptyString
             EmptyString EmptyString EmptyString "summary" EmptyString
             EmptyString EmptyString EmptyString EmptyString "en" [JObject []].

(** ** The effect of one check on the local variables

    [check_effect r it s s'] says that going from [s] to [s'] pushed the
    single item [it], which belongs to rule [r], and moved every counter by
    the amount the rubric tables give for the item's type. *)

Definition check_effect (r : Rule) (it : Item) (s s' : State) : Prop :=
  st_analysis s' = (st_analysis s ++ [it])%list
  /\ rule_of_item it = Some r
  /\ st_score s' = st_score s + spec_direct_score r (type it)
  /\ st_passed s' = st_passed s + kind_count passed_t it
  /\ st_warnings s' = st_warnings s + kind_count warning_t it
  /\ st_errors s' = st_errors s + kind_count error_t it
  /\ (forall c, score (get_category c (st_categoryScores s'))
                = score (get_category c (st_categoryScores s))
                  + (if Category_eqb c (spec_category r)
                     then spec_category_points r (type it) else 0))
  /\ (forall c, maxScore (get_category c (st_categoryScores s'))
                = maxScore (get_category c (st_categoryScores s))).

(** The same for a sequence of checks pushing the items [its]. *)
Definition run_effect (rs : list Rule) (its : list Item) (s s' : State) : Prop :=
  st_analysis s' = (st_analysis s ++ its)%list
  /\ map rule_of_item its = map Some rs
  /\ st_score s' = st_score s + direct_total its
  /\ st_passed s' = st_passed s + count_kind passed_t its
  /\ st_warnings s' = st_warnings s + count_kind warning_t its
  /\ st_errors s' = st_errors s + count_kind error_t its
  /\ (forall c, score (get_category c (st_categoryScores s'))
                = score (get_category c (st_categoryScores s))
                  + category_points_total c its)
  /\ (forall c, maxScore (get_category c (st_categoryScores s'))
                = maxScore (get_category c (st_categoryScores s))).

(** The most a list of rules can add to a category. *)
Fixpoint category_cap (c : Category) (rs : list Rule) : Z :=
  match rs with
  | [] => 0
  | r :: rs' =>
      (if Category_eqb c (spec_category r) then spec_category_points r passed_t else 0)
      + category_cap c rs'
  end.

(** * The rest of [script.js] *)

(** ** [normalizeUrl] (lines 581-591) *)

(** The characters that [trim] strips (WhiteSpace and LineTerminator of
    the language), among the code units a [string] character can hold: tab,
    line feed, vertical tab, form feed, carriage return, space and the
    no-break space. *)
Definition is_js_whitespace (c : ascii) : bool :=
  let n := N_of_ascii c in
  ((9 <=? n) && (n <=? 13) || (n =? 32) || (n =? 160))%N.

Fixpoint trimStart (s : string) : string :=
  match s with
  | EmptyString => EmptyString
  | String c s' => if is_js_whitespace c then trimStart s' else s
  end.

Fixpoint trimEnd (s : string) : string :=
  match s with
  | EmptyString => EmptyString
  | String c s' =>
      match trimEnd s' with
      | EmptyString => if is_js_whitespace c then EmptyString else String c EmptyString
      | r => String c r
      end
  end.

(** [s.trim()] *)
Definition trim (s : string) : string := trimEnd (trimStart s).

(** Matching one pattern character under the [i] flag: the letters of the
    pattern are ASCII, and only their two cases canonicalise to them. *)
Definition ci_letter (lower upper c : ascii) : bool :=
  Ascii.eqb c lower || Ascii.eqb c upper.

(** [s] starts with the characters of [p], case-sensitively. *)
Fixpoint starts_with (p s : string) : bool :=
  match p, s with
  | EmptyString, _ => true
  | String a p', String b s' => Ascii.eqb a b && starts_with p' s'
  | String _ _, EmptyString => false
  end.

(** [url.match(/^https?:\/\//i)], as a truth value. *)
Definition matches_http_scheme (url : string) : bool :=
  match url with
  | String c1 (String c2 (String c3 (String c4 rest))) =>
      ci_letter "h" "H" c1 && ci_letter "t" "T" c2
      && ci_letter "t" "T" c3 && ci_letter "p" "P" c4
      && ((match rest with
           | String c5 rest' => ci_letter "s" "S" c5 && starts_with "://" rest'
           | EmptyString => false
           end)
          || starts_with "://" rest)
  | _ => false
  end.

Definition normalizeUrl (url : string) : string :=
  let url := trim url in
  if negb (matches_http_scheme url) then "https://" ++ url else url.

(** Strings made of whitespace only. *)
Fixpoint all_whitespace (s : string) : bool :=
  match s with
  | EmptyString => true
  | String c s' => is_js_whitespace c && all_whitespace s'
  end.

(** Strings that do not start with whitespace. *)
Definition no_leading_whitespace (s : string) : Prop :=
  match s with
  | EmptyString => True
  | String c _ => is_js_whitespace c = false
  end.

(** ** [extractStructuredData] (lines 657-671)

    The function walks the [script type="application/ld+json"] elements of
    the document in order.  It is modelled on the list of their
    [textContent]; [JSON.parse] is a parameter that answers [None] where it
    throws. *)
Definition extractStructuredData (JSON_parse : string -> option JsonValue)
  (scripts : list string) : list JsonValue :=
  fold_left (fun (structuredData : list JsonValue) (script : string) =>
               match JSON_parse script with
               | Some data => (structuredData ++ [data])%list
               | None => structuredData
               end)
            scripts [].

(** A record with the [structuredData] property replaced. *)
Definition with_structuredData (v : list JsonValue) (m : MetaTags) : MetaTags :=
  mkMetaTags (title m) (description m) (keywords m) (canonical m) (robots m)
             (viewport m) (charset m) (ogTitle m) (ogDescription m) (ogImage m)
             (ogUrl m) (ogType m) (ogSiteName m) (twitterCard m) (twitterTitle m)
             (twitterDescription m) (twitterImage m) (twitterSite m) (author m)
             (language m) v.

(** A parser used in examples: it accepts the text of the empty object only. *)
Definition parse_empty_object_only (s : string) : option JsonValue :=
  if String.eqb s "{}" then Some (JObject []) else None.

(** ** The first [analyzeSEO] of the file (lines 149-327)

    The file holds an earlier [SEOAnalyzer] whose [analyzeSEO] has no
    category scores. *)

Record State1 : Type := mkState1 {
  s1_analysis : list Item;
  s1_score : Z;
  s1_passed : Z;
  s1_warnings : Z;
  s1_errors : Z
}.

Record Analysis1 : Type := mkAnalysis1 {
  a1_score : Z;
  a1_passed : Z;
  a1_warnings : Z;
  a1_errors : Z;
  a1_items : list Item
}.

Definition push_analysis1 (it : Item) (s : State1) : State1 :=
  mkState1 (s1_analysis s ++ [it]) (s1_score s) (s1_passed s) (s1_warnings s)
           (s1_errors s).
Definition add_score1 (n : Z) (s : State1) : State1 :=
  mkState1 (s1_analysis s) (s1_score s + n) (s1_passed s) (s1_warnings s)
           (s1_errors s).
Definition incr_passed1 (s : State1) : State1 :=
  mkState1 (s1_analysis s) (s1_score s) (s1_passed s + 1) (s1_warnings s)
           (s1_errors s).
Definition incr_warnings1 (s : State1) : State1 :=
  mkState1 (s1_analysis s) (s1_score s) (s1_passed s) (s1_warnings s + 1)
           (s1_errors s).
Definition incr_errors1 (s : State1) : State1 :=
  mkState1 (s1_analysis s) (s1_score s) (s1_passed s) (s1_warnings s)
           (s1_errors s + 1).

Definition seq1 (f g : State1 -> State1) : State1 -> State1 := fun s => g (f s).
Notation "f ;;; g" := (seq1 f g) (at level 61, right associativity).
Definition skip1 : State1 -> State1 := fun s => s.

(** Title analysis, lines 156-182. *)
Definition title_check_v1 (metaTags : MetaTags) : State1 -> State1 :=
  if truthy (title metaTags) then
    if (str_length (title metaTags) >=? 30) && (str_length (title metaTags) <=? 60) then
      let item := mkItem passed_t "Title Tag Length"
        ("Perfect! Title is " ++ num_to_string (str_length (title metaTags))
           ++ " characters (30-60 recommended).") in
      push_analysis1 item ;;; add_score1 15 ;;; incr_passed1
    else if str_length (title metaTags) >? 0 then
      let item := mkItem warning_t "Title Tag Length"
        ("Title is " ++ num_to_string (str_length (title metaTags))
           ++ " characters. Recommended: 30-60 characters.") in
      push_analysis1 item ;;; add_score1 8 ;;; incr_warnings1
    else skip1
  else
    let item := mkItem error_t "Missing Title Tag"
      "Title tag is missing. This is crucial for SEO." in
    push_analysis1 item ;;; incr_errors1.

(** Meta description analysis, lines 184-210. *)
Definition description_check_v1 (metaTags : MetaTags) : State1 -> State1 :=
  if truthy (description metaTags) then
    if (str_length (description metaTags) >=? 120)
       && (str_length (description metaTags) <=? 160) then
      let item := mkItem passed_t "Meta Description Length"
        ("Perfect! Description is " ++ num_to_string (str_length (description metaTags))
           ++ " characters (120-160 recommended).") in
      push_analysis1 item ;;; add_score1 15 ;;; incr_passed1
    else if str_length (description metaTags) >? 0 then
      let item := mkItem warning_t "Meta Description Length"
        ("Description is " ++ num_to_string (str_length (description metaTags))
           ++ " characters. Recommended: 120-160 characters.") in
      push_analysis1 item ;;; add_score1 8 ;;; incr_warnings1
    else skip1
  else
    let item := mkItem error_t "Missing Meta Description"
      "Meta description is missing. This affects click-through rates." in
    push_analysis1 item ;;; incr_errors1.

(** Open Graph analysis, lines 212-228. *)
Definition open_graph_check_v1 (metaTags : MetaTags) : State1 -> State1 :=
  if truthy (ogTitle metaTags) && truthy (ogDescription metaTags) then
    let item := mkItem passed_t "Open Graph Tags"
      "Open Graph title and description are present for social media sharing." in
    push_analysis1 item ;;; add_score1 10 ;;; incr_passed1
  else
    let item := mkItem warning_t "Open Graph Tags"
      "Missing Open Graph tags. These improve social media sharing appearance." in
    push_analysis1 item ;;; incr_warnings1.

(** Twitter Card analysis, lines 230-246. *)
Definition twitter_card_check_v1 (metaTags : MetaTags) : State1 -> State1 :=
  if truthy (twitterCard metaTags) then
    let item := mkItem passed_t "Twitter Card"
      "Twitter Card meta tag is present." in
    push_analysis1 item ;;; add_score1 5 ;;; incr_passed1
  else
    let item := mkItem warning_t "Twitter Card"
      "Twitter Card meta tag is missing." in
    push_analysis1 item ;;; incr_warnings1.

(** Canonical URL analysis, lines 248-264. *)
Definition canonical_check_v1 (metaTags : MetaTags) : State1 -> State1 :=
  if truthy (canonical metaTags) then
    let item := mkItem passed_t "Canonical URL"
      "Canonical URL is specified, helping prevent duplicate content issues." in
    push_analysis1 item ;;; add_score1 10 ;;; incr_passed1
  else
    let item := mkItem warning_t "Canonical URL"
      "Canonical URL is missing. Consider adding it to prevent duplicate content issues." in
    push_analysis1 item ;;; incr_warnings1.

(** Viewport meta tag analysis, lines 266-282. *)
Definition viewport_check_v1 (metaTags : MetaTags) : State1 -> State1 :=
  if truthy (viewport metaTags) then
    let item := mkItem passed_t "Mobile Viewport"
      "Viewport meta tag is present for mobile optimization." in
    push_analysis1 item ;;; add_score1 5 ;;; incr_passed1
  else
    let item := mkItem error_t "Missing Viewport Tag"
      "Viewport meta tag is missing. This affects mobile usability." in
    push_analysis1 item ;;; incr_errors1.

(** Language attribute analysis, lines 284-300. *)
Definition language_check_v1 (metaTags : MetaTags) : State1 -> State1 :=
  if truthy (language metaTags) then
    let item := mkItem passed_t "Language Declaration"
      ("Language is declared as " ++ dquote ++ language metaTags ++ dquote ++ ".") in
    push_analysis1 item ;;; add_score1 5 ;;; incr_passed1
  else
    let item := mkItem warning_t "Language Declaration"
      "HTML lang attribute is missing. This helps search engines understand content language." in
    push_analysis1 item ;;; incr_warnings1.

(** Structured data analysis, lines 302-318. *)
Definition structured_data_check_v1 (metaTags : MetaTags) : State1 -> State1 :=
  if arr_length (structuredData metaTags) >? 0 then
    let item := mkItem passed_t "Structured Data"
      ("Found " ++ num_to_string (arr_length (structuredData metaTags))
         ++ " structured data block(s). Great for rich snippets!") in
    push_analysis1 item ;;; add_score1 10 ;;; incr_passed1
  else
    let item := mkItem warning_t "Structured Data"
      "No structured data found. Consider adding Schema.org markup for rich snippets." in
    push_analysis1 item ;;; incr_warnings1.

(** Lines 150-154 and 320-326. *)
Definition initial_state1 : State1 := mkState1 [] 0 0 0 0.

Definition result_of1 (s : State1) : Analysis1 :=
  mkAnalysis1 (Z.min 100 (s1_score s)) (s1_passed s) (s1_warnings s) (s1_errors s)
              (s1_analysis s).

Definition analyzeSEO_v1 (metaTags : MetaTags) (url : string) : Analysis1 :=
  result_of1
    ((title_check_v1 metaTags ;;; description_check_v1 metaTags ;;;
      open_graph_check_v1 metaTags ;;; twitter_card_check_v1 metaTags ;;;
      canonical_check_v1 metaTags ;;; viewport_check_v1 metaTags ;;;
      language_check_v1 metaTags ;;; structured_data_check_v1 metaTags)
       initial_state1).

(** What the later version returns, without its [categoryScores]. *)
Definition without_categories (a : Analysis) : Analysis1 :=
  mkAnalysis1 (an_score a) (an_passed a) (an_warnings a) (an_errors a) (an_items a).

Definition state_without_categories (s : State) : State1 :=
  mkState1 (st_analysis s) (st_score s) (st_passed s) (st_warnings s) (st_errors s).

(** ** Auxiliary notions for the score *)

(** The most a list of rules can add to [score]. *)
Fixpoint direct_cap (rs : list Rule) : Z :=
  match rs with
  | [] => 0
  | r :: rs' => spec_direct_score r passed_t + direct_cap rs'
  end.

(** The value kept from a script block, if any, as a list. *)
Definition parsed_block (JSON_parse : string -> option JsonValue) (script : string)
  : list JsonValue :=
  match JSON_parse script with
  | Some data => [data]
  | None => []
  end.

(** The items that belong to category [c]. *)
Definition item_in_category (c : Category) (it : Item) : bool :=
  match rule_of_item it with
  | Some r => Category_eqb c (spec_category r)
  | None => false
  end.

(** ** The scores in closed form *)

(** What a length check adds, read off its three branches. *)
Definition length_points (lo hi : Z) (s : string) : Z :=
  if truthy s
  then if (str_length s >=? lo) && (str_length s <=? hi) then 15 else 8
  else 0.

(** What a presence check adds. *)
Definition present_points (present : bool) (n : Z) : Z :=
  if present then n else 0.

(** The amount each check adds to [score] ... *)
Definition check_direct_points (r : Rule) (m : MetaTags) : Z :=
  match r with
  | RuleTitle => length_points 30 60 (title m)
  | RuleDescription => length_points 120 160 (description m)
  | RuleOpenGraph => present_points (truthy (ogTitle m) && truthy (ogDescription m)) 10
  | RuleTwitterCard => present_points (truthy (twitterCard m)) 5
  | RuleCanonical => present_points (truthy (canonical m)) 10
  | RuleViewport => present_points (truthy (viewport m)) 5
  | RuleLanguage => present_points (truthy (language m)) 5
  | RuleStructuredData => present_points (arr_length (structuredData m) >? 0) 10
  end.

(** ... and to the score of its category. *)
Definition check_category_points (r : Rule) (m : MetaTags) : Z :=
  match r with
  | RuleTitle => length_points 30 60 (title m)
  | RuleDescription => length_points 120 160 (description m)
  | RuleOpenGraph => present_points (truthy (ogTitle m) && truthy (ogDescription m)) 15
  | RuleTwitterCard => present_points (truthy (twitterCard m)) 10
  | RuleCanonical => present_points (truthy (canonical m)) 10
  | RuleViewport => present_points (truthy (viewport m)) 10
  | RuleLanguage => present_points (truthy (language m)) 5
  | RuleStructuredData => present_points (arr_length (structuredData m) >? 0) 10
  end.

Fixpoint sum_direct_points (rs : list Rule) (m : MetaTags) : Z :=
  match rs with
  | [] => 0
  | r :: rs' => check_direct_points r m + sum_direct_points rs' m
  end.

Fixpoint sum_category_points (c : Category) (rs : list Rule) (m : MetaTags) : Z :=
  match rs with
  | [] => 0
  | r :: rs' =>
      (if Category_eqb c (spec_category r) then check_category_points r m else 0)
      + sum_category_points c rs' m
  end.

(** ** [displayCategorySummaries] (lines 995-1049)

    The function writes, for each of the four categories, a percentage, a
    status text and three class names into the page.  It is modelled as the
    list of what is written, in the order of the source.  The quotient
    [score / maxScore] is taken in the rationals where the source computes
    in doubles.  The two agree on the category scores that [analyzeSEO]
    returns, the only argument the function is called with (line 986), and
    the properties below are stated for those; they can differ elsewhere
    (at 23/40 the doubles give 57, the rationals 58, and a [maxScore] of 0
    gives no number at all in the source).  The custom property
    [--category-score-deg], a formatted floating-point number, is left out. *)

(** [Math.round]: the nearest integer, halves rounded up. *)
Definition Math_round (x : Q) : Z := Qfloor (x + (1 # 2)).

Definition category_percentage (data : CategoryScore) : Z :=
  Math_round ((inject_Z (score data) / inject_Z (maxScore data)) * inject_Z 100).

Record CategoryCard : Type := mkCategoryCard {
  card_id : string;
  card_name : string;
  card_percentage : Z;
  card_status : string;
  card_statusClassName : string;
  card_circleClassName : string;
  card_cardClassName : string
}.

(** The body of the [forEach] callback. *)
Definition category_card (id name : string) (data : CategoryScore) : CategoryCard :=
  let percentage := category_percentage data in
  let '(status, statusClass, circleClass, cardClass) :=
    if percentage >=? 90 then ("Excellent", "excellent", "excellent", "excellent")
    else if percentage >=? 70 then ("Good", "good", "good", "good")
    else if percentage >=? 50 then ("Needs Work", "warning", "warning", "warning")
    else ("Poor", "poor", "poor", "poor") in
  mkCategoryCard id name percentage status
                 ("category-status " ++ statusClass)
                 ("category-score-circle " ++ circleClass)
                 ("category-card " ++ cardClass).

Definition displayCategorySummaries (categoryScores : CategoryScores)
  : list CategoryCard :=
  [category_card "basicSeo" "Basic SEO" (basicSeo categoryScores);
   category_card "socialMedia" "Social Media" (socialMedia categoryScores);
   category_card "technicalSeo" "Technical SEO" (technicalSeo categoryScores);
   category_card "contentQuality" "Content Quality" (contentQuality categoryScores)].

(** The status shown on the card at a position of the list. *)
Definition status_at (cards : list CategoryCard) (i : nat) : option string :=
  option_map card_status (nth_error cards i).

Definition percentage_at (cards : list CategoryCard) (i : nat) : option Z :=
  option_map card_percentage (nth_error cards i).

(** ** The previews of [displayResults] (lines 920-949)

    The texts and image markup written into the Google, Facebook and
    Twitter previews.  [domain] stands for [new URL(url).hostname]. *)

(** [a || b] on strings. *)
Definition js_or (a b : string) : string := if truthy a then a else b.

Record Previews : Type := mkPreviews {
  googleUrl : string;
  googleTitle : string;
  googleDescription : string;
  facebookTitle : string;
  facebookDescription : string;
  facebookUrl : string;
  facebookImage : string;
  twitterTitlePreview : string;
  twitterDescriptionPreview : string;
  twitterUrl : string;
  twitterImagePreview : string
}.

Definition preview_img (src : string) : string :=
  "<img src=" ++ dquote ++ src ++ dquote ++ " alt=" ++ dquote ++ "Preview" ++ dquote
  ++ " style=" ++ dquote ++ "width: 100%; height: 100%; object-fit: cover;"
  ++ dquote ++ ">".

Definition preview_placeholder : string :=
  "<i class=" ++ dquote ++ "fas fa-image" ++ dquote ++ "></i>".

Definition previews (metaTags : MetaTags) (url domain : string) : Previews :=
  mkPreviews
    url
    (js_or (title metaTags) "No title")
    (js_or (description metaTags) "No description available")
    (js_or (ogTitle metaTags) (js_or (title metaTags) "No title"))
    (js_or (ogDescription metaTags) (js_or (description metaTags) "No description"))
    domain
    (if truthy (ogImage metaTags) then preview_img (ogImage metaTags)
     else preview_placeholder)
    (js_or (twitterTitle metaTags)
           (js_or (ogTitle metaTags) (js_or (title metaTags) "No title")))
    (js_or (twitterDescription metaTags)
           (js_or (ogDescription metaTags)
                  (js_or (description metaTags) "No description")))
    domain
    (if truthy (js_or (twitterImage metaTags) (ogImage metaTags))
     then preview_img (js_or (twitterImage metaTags) (ogImage metaTags))
     else preview_placeholder).

(** The status chosen for a percentage, as in the [if] chain of the source. *)
Definition status_of_percentage (percentage : Z) : string :=
  if percentage >=? 90 then "Excellent"
  else if percentage >=? 70 then "Good"
  else if percentage >=? 50 then "Needs Work"
  else "Poor".

(** The quotient that [Math.round] is applied to. *)
Definition exact_percentage (data : CategoryScore) : Q :=
  (inject_Z (score data) / inject_Z (maxScore data)) * inject_Z 100.

(** ** [analyzeWebsite] and the page (lines 545-579 and 1137-1156)

    The part of the page that the methods write: the value of the URL
    input, the [style.display] of the loading indicator, of the results
    container and of the error box, the [disabled] flag of the button and
    the error text.  [shown] holds the arguments of the last
    [displayResults] call, which fills the results container; [fetched]
    lists the URLs given to [fetchWebsiteContent] so far. *)
Record Page : Type := mkPage {
  urlInput_value : string;
  loading_display : string;
  resultsContainer_display : string;
  analyzeBtn_disabled : bool;
  errorMessage_display : string;
  errorText : string;
  shown : option (MetaTags * Analysis * string);
  fetched : list string
}.

(** What the function obtains from the browser: the verdict of
    [isValidUrl] (a [URL] parse and a protocol test), the outcome of
    [fetchWebsiteContent] ([None] when it throws or the request fails) and
    the record built by [parseMetaTags] from the document. *)
Record Browser : Type := mkBrowser {
  isValidUrl : string -> bool;
  fetchWebsiteContent : string -> option string;
  parseMetaTags : string -> MetaTags
}.

Definition showLoading (p : Page) : Page :=
  mkPage (urlInput_value p) "block" "none" true (errorMessage_display p)
         (errorText p) (shown p) (fetched p).

Definition hideLoading (p : Page) : Page :=
  mkPage (urlInput_value p) "none" (resultsContainer_display p) false
         (errorMessage_display p) (errorText p) (shown p) (fetched p).

Definition showError (message : string) (p : Page) : Page :=
  mkPage (urlInput_value p) (loading_display p) "none" (analyzeBtn_disabled p)
         "block" message (shown p) (fetched p).

Definition hideError (p : Page) : Page :=
  mkPage (urlInput_value p) (loading_display p) (resultsContainer_display p)
         (analyzeBtn_disabled p) "none" (errorText p) (shown p) (fetched p).

(** [this.urlInput.value = url] *)
Definition set_urlInput (url : string) (p : Page) : Page :=
  mkPage url (loading_display p) (resultsContainer_display p)
         (analyzeBtn_disabled p) (errorMessage_display p) (errorText p)
         (shown p) (fetched p).

(** The request made by [fetchWebsiteContent]. *)
Definition record_fetch (url : string) (p : Page) : Page :=
  mkPage (urlInput_value p) (loading_display p) (resultsContainer_display p)
         (analyzeBtn_disabled p) (errorMessage_display p) (errorText p)
         (shown p) (fetched p ++ [url]).

(** [displayResults]: it fills the results container and ends with
    [this.resultsContainer.style.display = 'block']. *)
Definition displayResults (metaTags : MetaTags) (analysis : Analysis) (url : string)
  (p : Page) : Page :=
  mkPage (urlInput_value p) (loading_display p) "block" (analyzeBtn_disabled p)
         (errorMessage_display p) (errorText p)
         (Some (metaTags, analysis, url)) (fetched p).

(** One run of [analyzeWebsite], from the click to the end of the
    [finally] block, when no other handler runs while the request is
    awaited (line 568).  The two halves of the run, before and after that
    point, are [analyzeWebsite_until_await] and [analyzeWebsite_after_await]
    below. *)
Definition analyzeWebsite (browser : Browser) (p : Page) : Page :=
  let url := trim (urlInput_value p) in
  if negb (truthy url) then showError "Please enter a valid URL" p
  else
    let url := normalizeUrl url in
    if negb (isValidUrl browser url) then showError "Please enter a valid URL" p
    else
      let p := set_urlInput url p in
      let p := showLoading p in
      let p := hideError p in
      let p := record_fetch url p in
      let p :=
        match fetchWebsiteContent browser url with
        | Some htmlContent =>
            let metaTags := parseMetaTags browser htmlContent in
            let analysis := analyzeSEO metaTags url in
            displayResults metaTags analysis url p
        | None =>
            showError "Unable to analyze the website. Please check the URL and try again." p
        end in
      hideLoading p.

(** Where a run stands when it first yields control: finished at one of
    the input checks, or suspended at [await this.fetchWebsiteContent(url)]
    with the request for [url] under way. *)
Inductive Suspended : Type :=
| Finished (p : Page)
| Awaiting (url : string) (p : Page).

(** Lines 546-568, up to the [await]. *)
Definition analyzeWebsite_until_await (browser : Browser) (p : Page) : Suspended :=
  let url := trim (urlInput_value p) in
  if negb (truthy url) then Finished (showError "Please enter a valid URL" p)
  else
    let url := normalizeUrl url in
    if negb (isValidUrl browser url)
    then Finished (showError "Please enter a valid URL" p)
    else
      let p := set_urlInput url p in
      let p := showLoading p in
      let p := hideError p in
      Awaiting url (record_fetch url p).

(** Lines 568-578, from the settled request to the end of [finally]; [p]
    is the page as it is found then, after whatever other handlers did
    while the request was awaited. *)
Definition analyzeWebsite_after_await (browser : Browser) (url : string) (p : Page)
  : Page :=
  let p :=
    match fetchWebsiteContent browser url with
    | Some htmlContent =>
        let metaTags := parseMetaTags browser htmlContent in
        let analysis := analyzeSEO metaTags url in
        displayResults metaTags analysis url p
    | None =>
        showError "Unable to analyze the website. Please check the URL and try again." p
    end in
  hideLoading p.

(** A browser used in examples: every URL is valid and no request succeeds. *)
Definition offline_browser : Browser :=
  mkBrowser (fun _ => true) (fun _ => None) (fun _ => empty_tags).

(** A browser whose requests all answer the same document. *)
Definition static_browser (m : MetaTags) : Browser :=
  mkBrowser (fun _ => true) (fun _ => Some EmptyString) (fun _ => m).

Definition fresh_page (input : string) : Page :=
  mkPage input EmptyString EmptyString false EmptyString EmptyString None [].

(** * Properties *)

(** ** Basic facts about the primitives *)

Lemma truthy_length (s : string) : truthy s = true <-> 0 < str_length s.
Proof.
  unfold str_length. destruct s as [|c s']; simpl; split; intros H.
  - discriminate.
  - lia.
  - lia.
  - reflexivity.
Qed.

Lemma truthy_nonempty (s : string) : truthy s = true <-> s <> EmptyString.
Proof.
  destruct s; simpl; split; intros H; congruence.
Qed.

Lemma str_length_nonneg (s : string) : 0 <= str_length s.
Proof. unfold str_length. lia. Qed.

Lemma str_length_repeat_char (c : ascii) (n : nat) :
  str_length (repeat_char c n) = Z.of_nat n.
Proof.
  unfold str_length. f_equal.
  induction n as [|n IH]; simpl; [reflexivity | now rewrite IH].
Qed.

Lemma analyzeSEO_run_checks (metaTags : MetaTags) (url : string) :
  analyzeSEO metaTags url = result_of (run_checks rule_order metaTags initial_state).
Proof. reflexivity. Qed.

(** ** The effect of one check *)

(** Every branch starts with [analysis.push(item)]: take that item. *)
Ltac effect_branch :=
  cbv zeta;
  lazymatch goal with
  | |- exists it, check_effect _ it _ ((push_analysis ?x ;; _) _) => exists x
  end;
  unfold check_effect, seq, kind_count; cbn;
  repeat match goal with
         | |- _ /\ _ => split
         | |- forall c : Category, _ => intros []; cbn
         end;
  solve [reflexivity | lia].

Lemma title_check_effect (m : MetaTags) (s : State) :
  exists it, check_effect RuleTitle it s (title_check m s).
Proof.
  unfold title_check.
  destruct (truthy (title m)) eqn:Ht.
  - destruct ((str_length (title m) >=? 30) && (str_length (title m) <=? 60)) eqn:Hr.
    + effect_branch.
    + destruct (str_length (title m) >? 0) eqn:Hp.
      * effect_branch.
      * apply truthy_length in Ht.
        rewrite Z.gtb_ltb in Hp. apply Z.ltb_ge in Hp. lia.
  - effect_branch.
Qed.

Lemma description_check_effect (m : MetaTags) (s : State) :
  exists it, check_effect RuleDescription it s (description_check m s).
Proof.
  unfold description_check.
  destruct (truthy (description m)) eqn:Ht.
  - destruct ((str_length (description m) >=? 120)
              && (str_length (description m) <=? 160)) eqn:Hr.
    + effect_branch.
    + destruct (str_length (description m) >? 0) eqn:Hp.
      * effect_branch.
      * apply truthy_length in Ht.
        rewrite Z.gtb_ltb in Hp. apply Z.ltb_ge in Hp. lia.
  - effect_branch.
Qed.

Lemma check_of_effect (r : Rule) (m : MetaTags) (s : State) :
  exists it, check_effect r it s (check_of r m s).
Proof.
  destruct r; cbn [check_of].
  - apply title_check_effect.
  - apply description_check_effect.
  - unfold open_graph_check.
    destruct (truthy (ogTitle m) && truthy (ogDescription m)); effect_branch.
  - unfold twitter_card_check. destruct (truthy (twitterCard m)); effect_branch.
  - unfold canonical_check. destruct (truthy (canonical m)); effect_branch.
  - unfold viewport_check. destruct (truthy (viewport m)); effect_branch.
  - unfold language_check. destruct (truthy (language m)); effect_branch.
  - unfold structured_data_check.
    destruct (arr_length (structuredData m) >? 0); effect_branch.
Qed.

Lemma item_direct_score_rule (r : Rule) (it : Item) :
  rule_of_item it = Some r -> item_direct_score it = spec_direct_score r (type it).
Proof. unfold item_direct_score. now intros ->. Qed.

Lemma item_category_points_rule (c : Category) (r : Rule) (it : Item) :
  rule_of_item it = Some r ->
  item_category_points c it
  = if Category_eqb c (spec_category r) then spec_category_points r (type it) else 0.
Proof. unfold item_category_points. now intros ->. Qed.

Lemma direct_total_cons (it : Item) (its : list Item) :
  direct_total (it :: its) = item_direct_score it + direct_total its.
Proof. reflexivity. Qed.

Lemma count_kind_cons (k : ItemType) (it : Item) (its : list Item) :
  count_kind k (it :: its) = kind_count k it + count_kind k its.
Proof. reflexivity. Qed.

Lemma category_points_total_cons (c : Category) (it : Item) (its : list Item) :
  category_points_total c (it :: its)
  = item_category_points c it + category_points_total c its.
Proof. reflexivity. Qed.

(** ** The effect of a sequence of checks *)

Lemma run_checks_effect (m : MetaTags) (rs : list Rule) :
  forall s, exists its, run_effect rs its s (run_checks rs m s).
Proof.
  induction rs as [|r rs IH]; intros s.
  - exists []. unfold run_effect. cbn.
    rewrite app_nil_r. repeat split; intros; lia.
  - destruct (check_of_effect r m s)
      as (it & Han & Hrule & Hsc & Hp & Hw & He & Hcat & Hmax).
    destruct (IH (check_of r m s))
      as (its & Han' & Hrules & Hsc' & Hp' & Hw' & He' & Hcat' & Hmax').
    exists (it :: its). unfold run_effect. cbn [run_checks].
    repeat split.
    + rewrite Han', Han, <- app_assoc. reflexivity.
    + cbn. now rewrite Hrule, Hrules.
    + rewrite direct_total_cons, Hsc', Hsc, (item_direct_score_rule r it Hrule). lia.
    + rewrite count_kind_cons. lia.
    + rewrite count_kind_cons. lia.
    + rewrite count_kind_cons. lia.
    + intros c.
      rewrite category_points_total_cons, Hcat', Hcat,
        (item_category_points_rule c r it Hrule).
      lia.
    + intros c. now rewrite Hmax', Hmax.
Qed.

(** The returned object, in terms of the pushed items. *)
Lemma analyzeSEO_effect (m : MetaTags) (url : string) :
  exists its, an_items (analyzeSEO m url) = its
    /\ run_effect rule_order its initial_state
                  (run_checks rule_order m initial_state).
Proof.
  destruct (run_checks_effect m rule_order initial_state) as (its & H).
  exists its. split; [|exact H].
  rewrite analyzeSEO_run_checks. unfold result_of. cbn [an_items].
  destruct H as (-> & _). reflexivity.
Qed.

Lemma count_kind_total (its : list Item) :
  count_kind passed_t its + count_kind warning_t its + count_kind error_t its
  = Z.of_nat (List.length its).
Proof.
  induction its as [|it its IH].
  - reflexivity.
  - rewrite !count_kind_cons. cbn [List.length].
    unfold kind_count. destruct (type it); cbn [ItemType_eqb]; lia.
Qed.

(** ** Bounds on category points *)

Lemma spec_category_points_bounds (r : Rule) (k : ItemType) :
  0 <= spec_category_points r k <= spec_category_points r passed_t.
Proof. destruct r, k; cbn; lia. Qed.

Lemma category_points_total_cap (c : Category) (rs : list Rule) :
  forall its, map rule_of_item its = map Some rs ->
              0 <= category_points_total c its <= category_cap c rs.
Proof.
  induction rs as [|r rs IH]; intros [|it its] Hmap; try discriminate.
  - cbn. lia.
  - cbn in Hmap. injection Hmap as Hit Hrest.
    specialize (IH its Hrest).
    rewrite category_points_total_cons, (item_category_points_rule c r it Hit).
    cbn [category_cap].
    pose proof (spec_category_points_bounds r (type it)).
    destruct (Category_eqb c (spec_category r)); lia.
Qed.

(** ** The empty record *)

(** C1, as stated, fails: on the record whose fields are all empty the
    function does not report two errors and six warnings. *)
Lemma empty_tags_not_two_errors :
  ~ (an_score (analyzeSEO empty_tags "https://example.com") = 0
     /\ an_errors (analyzeSEO empty_tags "https://example.com") = 2
     /\ an_warnings (analyzeSEO empty_tags "https://example.com") = 6
     /\ an_passed (analyzeSEO empty_tags "https://example.com") = 0).
Proof.
  intros (_ & He & _). vm_compute in He. discriminate He.
Qed.

(** C1 (amended): for the record with every field equal to the empty string
    and an empty [structuredData] array, [analyzeSEO] returns score 0,
    3 errors (title, description and viewport), 5 warnings and 0 passed. *)
Theorem empty_tags_report (url : string) :
  an_score (analyzeSEO empty_tags url) = 0
  /\ an_errors (analyzeSEO empty_tags url) = 3
  /\ an_warnings (analyzeSEO empty_tags url) = 5
  /\ an_passed (analyzeSEO empty_tags url) = 0
  /\ map type (an_items (analyzeSEO empty_tags url))
     = [error_t; error_t; warning_t; warning_t; warning_t; error_t; warning_t; warning_t].
Proof.
  repeat split; reflexivity.
Qed.

(** ** Only the viewport present *)

(** C2, as stated, fails: with only [viewport] set to "w" the function
    reports two errors, not one. *)
Lemma viewport_only_not_one_error :
  ~ (an_errors (analyzeSEO viewport_only "https://example.com") = 1
     /\ an_score (analyzeSEO viewport_only "https://example.com") = 5).
Proof.
  intros (He & _). vm_compute in He. discriminate He.
Qed.

(** C2 (amended): for the record with every field empty except
    [viewport = "w"] and an empty [structuredData] array, [analyzeSEO]
    returns 2 errors (title and description) and score 5. *)
Theorem viewport_only_report (url : string) :
  an_errors (analyzeSEO viewport_only url) = 2
  /\ an_score (analyzeSEO viewport_only url) = 5
  /\ map type (an_items (analyzeSEO viewport_only url))
     = [error_t; error_t; warning_t; warning_t; warning_t; passed_t; warning_t; warning_t].
Proof.
  repeat split; reflexivity.
Qed.

(** ** Direct score against category points *)

(** What one check adds does not depend on the variables it starts from. *)
Lemma check_of_points (r : Rule) (m : MetaTags) (s : State) :
  st_score (check_of r m s) = st_score s + direct_points r m
  /\ category_total (st_categoryScores (check_of r m s))
     = category_total (st_categoryScores s) + category_points r m.
Proof.
  unfold direct_points, category_points.
  destruct r; cbn [check_of];
    [ unfold title_check;
      destruct (truthy (title m));
      [ destruct ((str_length (title m) >=? 30) && (str_length (title m) <=? 60));
        [| destruct (str_length (title m) >? 0)] |]
    | unfold description_check;
      destruct (truthy (description m));
      [ destruct ((str_length (description m) >=? 120)
                  && (str_length (description m) <=? 160));
        [| destruct (str_length (description m) >? 0)] |]
    | unfold open_graph_check;
      destruct (truthy (ogTitle m) && truthy (ogDescription m))
    | unfold twitter_card_check; destruct (truthy (twitterCard m))
    | unfold canonical_check; destruct (truthy (canonical m))
    | unfold viewport_check; destruct (truthy (viewport m))
    | unfold language_check; destruct (truthy (language m))
    | unfold structured_data_check;
      destruct (arr_length (structuredData m) >? 0) ];
    unfold seq, skip, category_total; cbn; lia.
Qed.

(** The two amounts added by each check, by outcome. *)
Lemma points_by_rule (r : Rule) (m : MetaTags) :
  match r with
  | RuleTitle | RuleDescription =>
      direct_points r m = category_points r m
  | RuleCanonical | RuleStructuredData =>
      direct_points r m = category_points r m
  | RuleLanguage =>
      direct_points r m = category_points r m
  | RuleOpenGraph =>
      if truthy (ogTitle m) && truthy (ogDescription m)
      then direct_points r m = 10 /\ category_points r m = 15
      else direct_points r m = 0 /\ category_points r m = 0
  | RuleTwitterCard =>
      if truthy (twitterCard m)
      then direct_points r m = 5 /\ category_points r m = 10
      else direct_points r m = 0 /\ category_points r m = 0
  | RuleViewport =>
      if truthy (viewport m)
      then direct_points r m = 5 /\ category_points r m = 10
      else direct_points r m = 0 /\ category_points r m = 0
  end.
Proof.
  unfold direct_points, category_points.
  destruct r; cbn [check_of].
  - unfold title_check. destruct (truthy (title m)); [|reflexivity].
    destruct ((str_length (title m) >=? 30) && (str_length (title m) <=? 60));
      [reflexivity|].
    destruct (str_length (title m) >? 0); reflexivity.
  - unfold description_check. destruct (truthy (description m)); [|reflexivity].
    destruct ((str_length (description m) >=? 120)
              && (str_length (description m) <=? 160)); [reflexivity|].
    destruct (str_length (description m) >? 0); reflexivity.
  - unfold open_graph_check.
    destruct (truthy (ogTitle m) && truthy (ogDescription m)); split; reflexivity.
  - unfold twitter_card_check. destruct (truthy (twitterCard m)); split; reflexivity.
  - unfold canonical_check. destruct (truthy (canonical m)); reflexivity.
  - unfold viewport_check. destruct (truthy (viewport m)); split; reflexivity.
  - unfold language_check. destruct (truthy (language m)); reflexivity.
  - unfold structured_data_check.
    destruct (arr_length (structuredData m) >? 0); reflexivity.
Qed.



(** ** The overall score *)

(** C4: for every record the returned [score] is the minimum of 100 and the
    sum, over the returned items, of each item's direct score contribution
    as tabulated by the specification; in particular it never exceeds 100. *)
Theorem overall_score_is_clamped_direct_total (m : MetaTags) (url : string) :
  an_score (analyzeSEO m url)
  = Z.min 100 (direct_total (an_items (analyzeSEO m url)))
  /\ an_score (analyzeSEO m url) <= 100.
Proof.
  destruct (analyzeSEO_effect m url) as (its & Hits & Heff).
  destruct Heff as (_ & _ & Hscore & _).
  assert (Hs : an_score (analyzeSEO m url) = Z.min 100 (direct_total its)).
  { rewrite analyzeSEO_run_checks. unfold result_of. cbn [an_score].
    rewrite Hscore. reflexivity. }
  rewrite Hits. split; [exact Hs | rewrite Hs; apply Z.le_min_l].
Qed.

(** ** The list of findings *)

(** C5: for every record [analyzeSEO] returns exactly 8 items, the i-th one
    pushed by the i-th check (title, description, Open Graph, Twitter Card,
    canonical, viewport, language, structured data); whatever the variables
    hold, each check pushes exactly one item, its own, at the end. *)
Theorem eight_findings_in_rule_order (m : MetaTags) (url : string) :
  List.length (an_items (analyzeSEO m url)) = 8%nat
  /\ map rule_of_item (an_items (analyzeSEO m url))
     = [Some RuleTitle; Some RuleDescription; Some RuleOpenGraph;
        Some RuleTwitterCard; Some RuleCanonical; Some RuleViewport;
        Some RuleLanguage; Some RuleStructuredData]
  /\ (forall (r : Rule) (s : State),
        exists it, st_analysis (check_of r m s) = (st_analysis s ++ [it])%list
                   /\ rule_of_item it = Some r).
Proof.
  destruct (analyzeSEO_effect m url) as (its & Hits & Heff).
  destruct Heff as (_ & Hrules & _).
  rewrite Hits. split; [|split].
  - rewrite <- (length_map rule_of_item), Hrules. reflexivity.
  - exact Hrules.
  - intros r s. destruct (check_of_effect r m s) as (it & Han & Hr & _).
    exists it. split; assumption.
Qed.

(** ** Length thresholds *)

(** The first two items are those pushed by the title and description
    checks. *)
Lemma analyzeSEO_first_items (m : MetaTags) (url : string) :
  exists rest,
    an_items (analyzeSEO m url)
    = (st_analysis (description_check m (title_check m initial_state)) ++ rest)%list.
Proof.
  destruct (run_checks_effect m
              [RuleOpenGraph; RuleTwitterCard; RuleCanonical; RuleViewport;
               RuleLanguage; RuleStructuredData]
              (description_check m (title_check m initial_state)))
    as (rest & Han & _).
  exists rest. rewrite <- Han. reflexivity.
Qed.

Lemma range_test (n lo hi : Z) :
  (n >=? lo) && (n <=? hi) = true <-> lo <= n <= hi.
Proof.
  rewrite andb_true_iff, Z.geb_le, Z.leb_le. tauto.
Qed.

(** The outcome of the title check, by cases on the title. *)
Lemma title_check_type (m : MetaTags) :
  option_map type (nth_error (st_analysis (title_check m initial_state)) 0)
  = Some (if truthy (title m)
          then if (str_length (title m) >=? 30) && (str_length (title m) <=? 60)
               then passed_t else warning_t
          else error_t)
  /\ List.length (st_analysis (title_check m initial_state)) = 1%nat.
Proof.
  unfold title_check.
  destruct (truthy (title m)) eqn:Ht; [|split; reflexivity].
  destruct ((str_length (title m) >=? 30) && (str_length (title m) <=? 60));
    [split; reflexivity|].
  destruct (str_length (title m) >? 0) eqn:Hp; [split; reflexivity|].
  apply truthy_length in Ht. rewrite Z.gtb_ltb in Hp. apply Z.ltb_ge in Hp. lia.
Qed.

(** The outcome of the description check, by cases on the description. *)
Lemma description_check_type (m : MetaTags) (s : State) :
  option_map type (nth_error (st_analysis (description_check m s))
                             (List.length (st_analysis s)))
  = Some (if truthy (description m)
          then if (str_length (description m) >=? 120)
                  && (str_length (description m) <=? 160)
               then passed_t else warning_t
          else error_t).
Proof.
  assert (Hnth : forall it, nth_error (st_analysis s ++ [it]) (List.length (st_analysis s))
                            = Some it).
  { intros it. rewrite nth_error_app2 by lia. now rewrite Nat.sub_diag. }
  unfold description_check.
  destruct (truthy (description m)) eqn:Ht.
  - destruct ((str_length (description m) >=? 120)
              && (str_length (description m) <=? 160)).
    + unfold seq. cbn. now rewrite Hnth.
    + destruct (str_length (description m) >? 0) eqn:Hp.
      * unfold seq. cbn. now rewrite Hnth.
      * apply truthy_length in Ht. rewrite Z.gtb_ltb in Hp.
        apply Z.ltb_ge in Hp. lia.
  - unfold seq. cbn. now rewrite Hnth.
Qed.

Lemma analyzeSEO_title_type (m : MetaTags) (url : string) :
  type_at (analyzeSEO m url) 0
  = Some (if truthy (title m)
          then if (str_length (title m) >=? 30) && (str_length (title m) <=? 60)
               then passed_t else warning_t
          else error_t).
Proof.
  destruct (analyzeSEO_first_items m url) as (rest & Hitems).
  destruct (description_check_effect m (title_check m initial_state))
    as (it2 & Han2 & _).
  destruct (title_check_type m) as (Hty & Hlen).
  unfold type_at. rewrite Hitems, Han2.
  rewrite !nth_error_app1; [exact Hty | lia | rewrite length_app; lia].
Qed.

Lemma analyzeSEO_description_type (m : MetaTags) (url : string) :
  type_at (analyzeSEO m url) 1
  = Some (if truthy (description m)
          then if (str_length (description m) >=? 120)
                  && (str_length (description m) <=? 160)
               then passed_t else warning_t
          else error_t).
Proof.
  destruct (analyzeSEO_first_items m url) as (rest & Hitems).
  destruct (description_check_effect m (title_check m initial_state))
    as (it2 & Han2 & _).
  destruct (title_check_type m) as (_ & Hlen).
  pose proof (description_check_type m (title_check m initial_state)) as Hty.
  rewrite Hlen in Hty.
  unfold type_at. rewrite Hitems.
  rewrite nth_error_app1; [exact Hty | rewrite Han2, length_app, Hlen; cbn; lia].
Qed.

(** Reading the three-way test of a length check as propositions. *)
Lemma length_outcome_cases (s : string) (lo hi : Z) (k : option ItemType) :
  0 < lo ->
  k = Some (if truthy s
            then if (str_length s >=? lo) && (str_length s <=? hi)
                 then passed_t else warning_t
            else error_t) ->
  (k = Some passed_t <-> s <> EmptyString /\ lo <= str_length s <= hi)
  /\ (k = Some warning_t
      <-> s <> EmptyString /\ (str_length s < lo \/ hi < str_length s))
  /\ (k = Some error_t <-> str_length s = 0).
Proof.
  intros Hlo ->.
  pose proof (truthy_length s) as Hlen.
  pose proof (truthy_nonempty s) as Hne.
  pose proof (range_test (str_length s) lo hi) as Hrange.
  pose proof (str_length_nonneg s) as Hnn.
  destruct (truthy s).
  - assert (Hpos : 0 < str_length s) by now apply Hlen.
    assert (Hs : s <> EmptyString) by now apply Hne.
    destruct ((str_length s >=? lo) && (str_length s <=? hi)).
    + assert (Hin : lo <= str_length s <= hi) by now apply Hrange.
      intuition (try discriminate; try lia).
    + assert (Hout : ~ lo <= str_length s <= hi).
      { intros Hin. apply Hrange in Hin. discriminate Hin. }
      intuition (try discriminate; try lia).
  - assert (Hzero : str_length s = 0).
    { destruct (Z.eq_dec (str_length s) 0) as [E|E]; [exact E|].
      assert (Hpos : 0 < str_length s) by lia.
      apply Hlen in Hpos. discriminate Hpos. }
    intuition (try discriminate; try lia).
Qed.

(** C6: the first item (title check) has type passed exactly when the title
    is non-empty with length between 30 and 60 inclusive, warning exactly
    when it is non-empty with length below 30 or above 60, and error exactly
    when its length is 0; the second item (description check) likewise with
    bounds 120 and 160. *)
Theorem length_checks_inclusive_ranges (m : MetaTags) (url : string) :
  ((type_at (analyzeSEO m url) 0 = Some passed_t
    <-> title m <> EmptyString /\ 30 <= str_length (title m) <= 60)
   /\ (type_at (analyzeSEO m url) 0 = Some warning_t
       <-> title m <> EmptyString
           /\ (str_length (title m) < 30 \/ 60 < str_length (title m)))
   /\ (type_at (analyzeSEO m url) 0 = Some error_t
       <-> str_length (title m) = 0))
  /\
  ((type_at (analyzeSEO m url) 1 = Some passed_t
    <-> description m <> EmptyString /\ 120 <= str_length (description m) <= 160)
   /\ (type_at (analyzeSEO m url) 1 = Some warning_t
       <-> description m <> EmptyString
           /\ (str_length (description m) < 120 \/ 160 < str_length (description m)))
   /\ (type_at (analyzeSEO m url) 1 = Some error_t
       <-> str_length (description m) = 0)).
Proof.
  split.
  - apply length_outcome_cases; [lia | apply analyzeSEO_title_type].
  - apply length_outcome_cases; [lia | apply analyzeSEO_description_type].
Qed.

(** The thresholds at their boundaries, on titles and descriptions made of
    one repeated character. *)
Example title_boundaries :
  map (fun n => type_at (analyzeSEO (with_title (repeat_char "a" n) empty_tags)
                                    EmptyString) 0)
      [0; 29; 30; 60; 61]%nat
  = [Some error_t; Some warning_t; Some passed_t; Some passed_t; Some warning_t].
Proof. vm_compute. reflexivity. Qed.

Example description_boundaries :
  map (fun n => type_at (analyzeSEO (with_description (repeat_char "a" n) empty_tags)
                                    EmptyString) 1)
      [0; 119; 120; 160; 161]%nat
  = [Some error_t; Some warning_t; Some passed_t; Some passed_t; Some warning_t].
Proof. vm_compute. reflexivity. Qed.

(** ** Counters *)

(** C7: for every record the three counters of the returned object add up
    to the number of returned items. *)
Theorem counters_sum_to_number_of_items (m : MetaTags) (url : string) :
  an_passed (analyzeSEO m url) + an_warnings (analyzeSEO m url)
  + an_errors (analyzeSEO m url)
  = Z.of_nat (List.length (an_items (analyzeSEO m url))).
Proof.
  destruct (analyzeSEO_effect m url) as (its & Hits & Heff).
  destruct Heff as (_ & _ & _ & Hp & Hw & He & _).
  rewrite Hits, analyzeSEO_run_checks. unfold result_of.
  cbn [an_passed an_warnings an_errors].
  rewrite Hp, Hw, He, <- (count_kind_total its). cbn [initial_state st_passed st_warnings st_errors].
  lia.
Qed.

(** ** The all-passing record *)

(** C8: for a record with a 45-character title, a 140-character
    description, non-empty [ogTitle], [ogDescription], [canonical],
    [viewport], [language] and [twitterCard], and a one-element
    [structuredData] array, all 8 items are of type passed, the score is 75,
    and the counters are 8 passed, 0 warnings, 0 errors. *)
Theorem all_passed_report (m : MetaTags) (url : string)
  (Htitle : str_length (title m) = 45)
  (Hdescription : str_length (description m) = 140)
  (HogTitle : truthy (ogTitle m) = true)
  (HogDescription : truthy (ogDescription m) = true)
  (Hcanonical : truthy (canonical m) = true)
  (Hviewport : truthy (viewport m) = true)
  (Hlanguage : truthy (language m) = true)
  (HtwitterCard : truthy (twitterCard m) = true)
  (HstructuredData : arr_length (structuredData m) = 1) :
  map type (an_items (analyzeSEO m url))
  = [passed_t; passed_t; passed_t; passed_t; passed_t; passed_t; passed_t; passed_t]
  /\ an_score (analyzeSEO m url) = 75
  /\ an_passed (analyzeSEO m url) = 8
  /\ an_warnings (analyzeSEO m url) = 0
  /\ an_errors (analyzeSEO m url) = 0.
Proof.
  assert (Ht : truthy (title m) = true) by (apply truthy_length; lia).
  assert (Hd : truthy (description m) = true) by (apply truthy_length; lia).
  unfold analyzeSEO, seq, title_check, description_check, open_graph_check,
    twitter_card_check, canonical_check, viewport_check, language_check,
    structured_data_check.
  rewrite Ht, Hd, Htitle, Hdescription, HogTitle, HogDescription, Hcanonical,
    Hviewport, Hlanguage, HtwitterCard, HstructuredData.
  cbn. repeat split; reflexivity.
Qed.

Lemma all_passed_report_witness :
  (str_length (title full_tags) = 45
   /\ str_length (description full_tags) = 140
   /\ truthy (ogTitle full_tags) = true
   /\ truthy (ogDescription full_tags) = true
   /\ truthy (canonical full_tags) = true
   /\ truthy (viewport full_tags) = true
   /\ truthy (language full_tags) = true
   /\ truthy (twitterCard full_tags) = true
   /\ arr_length (structuredData full_tags) = 1)
  /\ (map type (an_items (analyzeSEO full_tags "https://e.com"))
      = [passed_t; passed_t; passed_t; passed_t; passed_t; passed_t; passed_t; passed_t]
      /\ an_score (analyzeSEO full_tags "https://e.com") = 75
      /\ an_passed (analyzeSEO full_tags "https://e.com") = 8
      /\ an_warnings (analyzeSEO full_tags "https://e.com") = 0
      /\ an_errors (analyzeSEO full_tags "https://e.com") = 0).
Proof.
  split.
  - repeat split; reflexivity.
  - apply (all_passed_report full_tags "https://e.com"); reflexivity.
Defined.

(** ** Category scores *)

(** C9: for every record each of the four category entries of the returned
    object has [score <= maxScore]; the [maxScore] constants are 30
    (basicSeo), 25 (socialMedia), 30 (technicalSeo) and 15 (contentQuality),
    which add up to 100. *)
Theorem category_scores_within_max (m : MetaTags) (url : string) :
  (forall c : Category,
      score (get_category c (an_categoryScores (analyzeSEO m url)))
      <= maxScore (get_category c (an_categoryScores (analyzeSEO m url))))
  /\ maxScore (basicSeo (an_categoryScores (analyzeSEO m url))) = 30
  /\ maxScore (socialMedia (an_categoryScores (analyzeSEO m url))) = 25
  /\ maxScore (technicalSeo (an_categoryScores (analyzeSEO m url))) = 30
  /\ maxScore (contentQuality (an_categoryScores (analyzeSEO m url))) = 15
  /\ maxScore (basicSeo (an_categoryScores (analyzeSEO m url)))
     + maxScore (socialMedia (an_categoryScores (analyzeSEO m url)))
     + maxScore (technicalSeo (an_categoryScores (analyzeSEO m url)))
     + maxScore (contentQuality (an_categoryScores (analyzeSEO m url))) = 100.
Proof.
  destruct (analyzeSEO_effect m url) as (its & _ & Heff).
  destruct Heff as (_ & Hrules & _ & _ & _ & _ & Hcat & Hmax).
  rewrite analyzeSEO_run_checks. unfold result_of. cbn [an_categoryScores].
  set (cs := st_categoryScores (run_checks rule_order m initial_state)) in *.
  assert (Hb : maxScore (basicSeo cs) = 30) by exact (Hmax BasicSeo).
  assert (Hs : maxScore (socialMedia cs) = 25) by exact (Hmax SocialMedia).
  assert (Ht : maxScore (technicalSeo cs) = 30) by exact (Hmax TechnicalSeo).
  assert (Hc : maxScore (contentQuality cs) = 15) by exact (Hmax ContentQuality).
  split; [| repeat split; lia].
  intros c. rewrite Hcat, Hmax.
  pose proof (category_points_total_cap c rule_order its Hrules) as Hcap.
  destruct c; cbn in Hcap |- *; lia.
Qed.

(** * Properties of the rest of the file *)

(** ** [trim] *)

Lemma trimStart_no_leading (s : string) : no_leading_whitespace (trimStart s).
Proof.
  induction s as [|c s IH]; cbn; [exact I|].
  destruct (is_js_whitespace c) eqn:Hc; [exact IH | exact Hc].
Qed.

Lemma trimStart_fixed (s : string) : no_leading_whitespace s -> trimStart s = s.
Proof.
  destruct s as [|c s]; cbn; [reflexivity|]. now intros ->.
Qed.

Lemma trimEnd_no_leading (s : string) :
  no_leading_whitespace s -> no_leading_whitespace (trimEnd s).
Proof.
  destruct s as [|c s]; cbn; [trivial|]. intros Hc.
  destruct (trimEnd s); [rewrite Hc|]; exact Hc.
Qed.

Lemma trimEnd_idempotent (s : string) : trimEnd (trimEnd s) = trimEnd s.
Proof.
  induction s as [|c s IH]; cbn; [reflexivity|].
  destruct (trimEnd s) as [|d r] eqn:Hr.
  - destruct (is_js_whitespace c) eqn:Hc; cbn; [reflexivity | now rewrite Hc].
  - cbn [trimEnd] in IH |- *. rewrite IH. reflexivity.
Qed.

Lemma trim_idempotent (s : string) : trim (trim s) = trim s.
Proof.
  unfold trim.
  rewrite (trimStart_fixed (trimEnd (trimStart s))).
  - apply trimEnd_idempotent.
  - apply trimEnd_no_leading, trimStart_no_leading.
Qed.

Lemma trimEnd_app_fixed (a b : string) :
  trimEnd b = b -> b <> EmptyString -> trimEnd (a ++ b) = a ++ b.
Proof.
  intros Hb Hne. induction a as [|c a IH]; cbn; [exact Hb|].
  rewrite IH. destruct (a ++ b) eqn:Hab; [|reflexivity].
  destruct a; cbn in Hab; [contradiction | discriminate].
Qed.

Lemma trimStart_all_whitespace (s : string) :
  all_whitespace s = true -> trimStart s = EmptyString.
Proof.
  induction s as [|c s IH]; cbn; [reflexivity|].
  intros H. apply andb_true_iff in H as [-> Hs]. auto.
Qed.

Lemma trimEnd_all_whitespace (s : string) :
  all_whitespace s = true -> trimEnd s = EmptyString.
Proof.
  induction s as [|c s IH]; cbn; [reflexivity|].
  intros H. apply andb_true_iff in H as [Hc Hs]. now rewrite IH, Hc.
Qed.

Lemma trimStart_app_whitespace (a s : string) :
  all_whitespace a = true -> trimStart (a ++ s) = trimStart s.
Proof.
  induction a as [|c a IH]; cbn; [reflexivity|].
  intros H. apply andb_true_iff in H as [-> Ha]. auto.
Qed.

Lemma trimEnd_app_whitespace (s b : string) :
  all_whitespace b = true -> trimEnd (s ++ b) = trimEnd s.
Proof.
  intros Hb. induction s as [|c s IH]; cbn.
  - now apply trimEnd_all_whitespace.
  - now rewrite IH.
Qed.

Lemma trim_app_whitespace (a s b : string) :
  all_whitespace a = true -> all_whitespace b = true ->
  trim (a ++ s ++ b) = trim s.
Proof.
  intros Ha Hb. unfold trim. rewrite (trimStart_app_whitespace a _ Ha).
  induction s as [|c s IH]; cbn.
  - now rewrite (trimStart_all_whitespace b Hb).
  - destruct (is_js_whitespace c); [exact IH|].
    change (String c (s ++ b)) with (String c s ++ b).
    now apply trimEnd_app_whitespace.
Qed.

(** ** [normalizeUrl] *)

Lemma normalizeUrl_scheme (url : string) :
  matches_http_scheme (normalizeUrl url) = true.
Proof.
  unfold normalizeUrl.
  destruct (matches_http_scheme (trim url)) eqn:Hm; cbn [negb].
  - exact Hm.
  - reflexivity.
Qed.

(** X1: whatever the input, the string returned by [normalizeUrl] starts
    with [http://] or [https://] (in any letter case). *)
Theorem normalizeUrl_result_has_http_scheme (url : string) :
  matches_http_scheme (normalizeUrl url) = true.
Proof. exact (normalizeUrl_scheme url). Qed.

Lemma normalizeUrl_trimmed (url : string) :
  trim (normalizeUrl url) = normalizeUrl url.
Proof.
  unfold normalizeUrl.
  destruct (matches_http_scheme (trim url)); cbn [negb].
  - apply trim_idempotent.
  - unfold trim at 1. rewrite trimStart_fixed by reflexivity.
    destruct (trimEnd (trimStart url)) as [|c r] eqn:Ht.
    + unfold trim. rewrite Ht. reflexivity.
    + unfold trim. rewrite Ht. apply trimEnd_app_fixed; [|discriminate].
      rewrite <- Ht. apply trimEnd_idempotent.
Qed.

Lemma normalizeUrl_fixed (url : string) :
  normalizeUrl (normalizeUrl url) = normalizeUrl url.
Proof.
  unfold normalizeUrl at 1.
  rewrite normalizeUrl_trimmed, normalizeUrl_scheme. reflexivity.
Qed.

(** X2: [normalizeUrl] is idempotent: normalising an already normalised
    URL changes nothing (the prefix is never added twice), and its result
    has no leading or trailing whitespace. *)
Theorem normalizeUrl_idempotent (url : string) :
  normalizeUrl (normalizeUrl url) = normalizeUrl url
  /\ trim (normalizeUrl url) = normalizeUrl url.
Proof.
  split; [apply normalizeUrl_fixed | apply normalizeUrl_trimmed].
Qed.

(** X3: an input made of whitespace only (the empty input included) is
    normalised to the bare prefix [https://]. *)
Theorem normalizeUrl_blank (url : string) (Hblank : all_whitespace url = true) :
  normalizeUrl url = "https://".
Proof.
  unfold normalizeUrl, trim. rewrite (trimStart_all_whitespace url Hblank).
  reflexivity.
Qed.

Lemma normalizeUrl_blank_witness :
  all_whitespace (String " " (String (ascii_of_nat 9) EmptyString)) = true
  /\ normalizeUrl (String " " (String (ascii_of_nat 9) EmptyString)) = "https://".
Proof.
  split.
  - reflexivity.
  - apply (normalizeUrl_blank (String " " (String (ascii_of_nat 9) EmptyString))).
    reflexivity.
Defined.

(** X4: whitespace around the input does not matter: adding whitespace
    before and after a URL gives the same normalised URL. *)
Theorem normalizeUrl_ignores_surrounding_whitespace (a url b : string)
  (Ha : all_whitespace a = true) (Hb : all_whitespace b = true) :
  normalizeUrl (a ++ url ++ b) = normalizeUrl url.
Proof.
  unfold normalizeUrl. rewrite (trim_app_whitespace a url b Ha Hb). reflexivity.
Qed.

Lemma normalizeUrl_ignores_surrounding_whitespace_witness :
  (all_whitespace "  " = true /\ all_whitespace " " = true)
  /\ normalizeUrl ("  " ++ "example.com" ++ " ") = normalizeUrl "example.com".
Proof.
  split.
  - split; reflexivity.
  - apply (normalizeUrl_ignores_surrounding_whitespace "  " "example.com" " ");
      reflexivity.
Defined.

Example normalizeUrl_examples :
  normalizeUrl "  example.com " = "https://example.com"
  /\ normalizeUrl "HTTP://Example.com" = "HTTP://Example.com"
  /\ normalizeUrl "http://a.b" = "http://a.b"
  /\ normalizeUrl "ftp://a.b" = "https://ftp://a.b"
  /\ normalizeUrl "https:/a.b" = "https://https:/a.b".
Proof. repeat split; reflexivity. Qed.

(** ** [extractStructuredData] *)

Lemma extractStructuredData_fold (JSON_parse : string -> option JsonValue)
  (scripts : list string) (acc : list JsonValue) :
  fold_left (fun (structuredData : list JsonValue) (script : string) =>
               match JSON_parse script with
               | Some data => (structuredData ++ [data])%list
               | None => structuredData
               end)
            scripts acc
  = (acc ++ flat_map (parsed_block JSON_parse) scripts)%list.
Proof.
  revert acc. induction scripts as [|s scripts IH]; intros acc; cbn.
  - now rewrite app_nil_r.
  - rewrite IH. unfold parsed_block at 2.
    destruct (JSON_parse s); [now rewrite <- app_assoc | reflexivity].
Qed.

Lemma extractStructuredData_flat_map (JSON_parse : string -> option JsonValue)
  (scripts : list string) :
  extractStructuredData JSON_parse scripts = flat_map (parsed_block JSON_parse) scripts.
Proof.
  unfold extractStructuredData. now rewrite extractStructuredData_fold.
Qed.

(** X5: [extractStructuredData] keeps exactly the values of the blocks that
    parse, in document order: a value is returned if and only if some block
    parses to it, the result of a concatenation is the concatenation of the
    results, and there are never more values than blocks. *)
Theorem extractStructuredData_keeps_parsed_blocks
  (JSON_parse : string -> option JsonValue) (scripts more : list string) :
  (forall data, In data (extractStructuredData JSON_parse scripts)
                <-> exists script, In script scripts /\ JSON_parse script = Some data)
  /\ extractStructuredData JSON_parse (scripts ++ more)
     = (extractStructuredData JSON_parse scripts
        ++ extractStructuredData JSON_parse more)%list
  /\ (List.length (extractStructuredData JSON_parse scripts)
      <= List.length scripts)%nat.
Proof.
  rewrite !extractStructuredData_flat_map. split; [|split].
  - intros data. rewrite in_flat_map. split.
    + intros (s & Hin & Hd). exists s. split; [exact Hin|].
      unfold parsed_block in Hd. destruct (JSON_parse s); cbn in Hd; [|contradiction].
      destruct Hd as [->|[]]. reflexivity.
    + intros (s & Hin & Hp). exists s. split; [exact Hin|].
      unfold parsed_block. rewrite Hp. now left.
  - apply flat_map_app.
  - induction scripts as [|s scripts IH]; cbn; [lia|].
    rewrite length_app. unfold parsed_block at 1.
    destruct (JSON_parse s); cbn; lia.
Qed.

Lemma structured_data_check_type (m : MetaTags) (s : State) :
  option_map type (nth_error (st_analysis (structured_data_check m s))
                             (List.length (st_analysis s)))
  = Some (if arr_length (structuredData m) >? 0 then passed_t else warning_t).
Proof.
  assert (Hnth : forall it, nth_error (st_analysis s ++ [it]) (List.length (st_analysis s))
                            = Some it).
  { intros it. rewrite nth_error_app2 by lia. now rewrite Nat.sub_diag. }
  unfold structured_data_check.
  destruct (arr_length (structuredData m) >? 0); unfold seq; cbn; now rewrite Hnth.
Qed.

(** The last item is the one pushed by the structured data check. *)
Lemma analyzeSEO_structured_data_type (m : MetaTags) (url : string) :
  type_at (analyzeSEO m url) 7
  = Some (if arr_length (structuredData m) >? 0 then passed_t else warning_t).
Proof.
  destruct (run_checks_effect m
              [RuleTitle; RuleDescription; RuleOpenGraph; RuleTwitterCard;
               RuleCanonical; RuleViewport; RuleLanguage] initial_state)
    as (its & Han & Hrules & _).
  assert (Hlen : List.length its = 7%nat).
  { rewrite <- (length_map rule_of_item), Hrules. reflexivity. }
  cbn [initial_state st_analysis app] in Han.
  pose proof (structured_data_check_type m
                (run_checks [RuleTitle; RuleDescription; RuleOpenGraph;
                             RuleTwitterCard; RuleCanonical; RuleViewport;
                             RuleLanguage] m initial_state)) as Hty.
  rewrite Han, Hlen in Hty. exact Hty.
Qed.

(** X6: when the [structuredData] of a record comes from
    [extractStructuredData], the structured data check passes if and only
    if at least one block parses; a page whose blocks are all malformed is
    scored like a page without blocks (a warning). *)
Theorem structured_data_check_needs_one_valid_block
  (JSON_parse : string -> option JsonValue) (scripts : list string)
  (m : MetaTags) (url : string) :
  let tags := with_structuredData (extractStructuredData JSON_parse scripts) m in
  (type_at (analyzeSEO tags url) 7 = Some passed_t
   <-> exists script, In script scripts /\ JSON_parse script <> None)
  /\ (type_at (analyzeSEO tags url) 7 = Some warning_t
      <-> forall script, In script scripts -> JSON_parse script = None).
Proof.
  intros tags. rewrite analyzeSEO_structured_data_type.
  unfold tags. cbn [structuredData with_structuredData].
  rewrite extractStructuredData_flat_map. unfold arr_length.
  induction scripts as [|s scripts IH]; cbn [flat_map].
  - cbn. split; split; intros H; try discriminate H; try reflexivity.
    + destruct H as (s & [] & _).
    + intros s [].
  - unfold parsed_block at 1 3. destruct (JSON_parse s) as [v|] eqn:Hs.
    + cbn [app List.length].
      assert (Hpos : (Z.of_nat (S (List.length (flat_map (parsed_block JSON_parse) scripts)))
                      >? 0) = true).
      { rewrite Z.gtb_ltb. apply Z.ltb_lt. lia. }
      rewrite Hpos. split; split; intros H; try discriminate H; try reflexivity.
      * exists s. split; [now left | congruence].
      * specialize (H s (or_introl eq_refl)). congruence.
    + cbn [app]. destruct IH as [IHp IHw]. split.
      * rewrite IHp. split.
        -- intros (s' & Hin & Hp). exists s'. split; [now right | exact Hp].
        -- intros (s' & [<-|Hin] & Hp); [congruence|]. exists s'. now split.
      * rewrite IHw. split.
        -- intros Hall s' [<-|Hin]; [exact Hs | now apply Hall].
        -- intros Hall s' Hin. apply Hall. now right.
Qed.

Example structured_data_all_malformed :
  extractStructuredData parse_empty_object_only ["{"; "not json"] = []
  /\ extractStructuredData parse_empty_object_only ["{"; "{}"; "x"; "{}"]
     = [JObject []; JObject []].
Proof. split; reflexivity. Qed.

(** ** The two versions of [analyzeSEO] *)

Lemma checks_agree (r : Rule) (m : MetaTags) (s : State) :
  state_without_categories (check_of r m s)
  = match r with
    | RuleTitle => title_check_v1
    | RuleDescription => description_check_v1
    | RuleOpenGraph => open_graph_check_v1
    | RuleTwitterCard => twitter_card_check_v1
    | RuleCanonical => canonical_check_v1
    | RuleViewport => viewport_check_v1
    | RuleLanguage => language_check_v1
    | RuleStructuredData => structured_data_check_v1
    end m (state_without_categories s).
Proof.
  destruct r; cbn [check_of].
  - unfold title_check, title_check_v1. destruct (truthy (title m)); [|reflexivity].
    destruct ((str_length (title m) >=? 30) && (str_length (title m) <=? 60));
      [reflexivity|].
    destruct (str_length (title m) >? 0); reflexivity.
  - unfold description_check, description_check_v1.
    destruct (truthy (description m)); [|reflexivity].
    destruct ((str_length (description m) >=? 120)
              && (str_length (description m) <=? 160)); [reflexivity|].
    destruct (str_length (description m) >? 0); reflexivity.
  - unfold open_graph_check, open_graph_check_v1.
    destruct (truthy (ogTitle m) && truthy (ogDescription m)); reflexivity.
  - unfold twitter_card_check, twitter_card_check_v1.
    destruct (truthy (twitterCard m)); reflexivity.
  - unfold canonical_check, canonical_check_v1.
    destruct (truthy (canonical m)); reflexivity.
  - unfold viewport_check, viewport_check_v1.
    destruct (truthy (viewport m)); reflexivity.
  - unfold language_check, language_check_v1.
    destruct (truthy (language m)); reflexivity.
  - unfold structured_data_check, structured_data_check_v1.
    destruct (arr_length (structuredData m) >? 0); reflexivity.
Qed.

(** X7: the later [analyzeSEO] (with category scores) returns the same
    score, counters and items as the earlier one for every record: adding
    the category scores changed nothing else. *)
Theorem analyzeSEO_versions_agree (m : MetaTags) (url : string) :
  analyzeSEO_v1 m url = without_categories (analyzeSEO m url).
Proof.
  unfold analyzeSEO, analyzeSEO_v1, seq, seq1.
  change (without_categories (result_of ?s))
    with (result_of1 (state_without_categories s)).
  f_equal.
  rewrite (checks_agree RuleStructuredData), (checks_agree RuleLanguage),
    (checks_agree RuleViewport), (checks_agree RuleCanonical),
    (checks_agree RuleTwitterCard), (checks_agree RuleOpenGraph),
    (checks_agree RuleDescription), (checks_agree RuleTitle).
  reflexivity.
Qed.

(** ** The range of the overall score *)

Lemma spec_direct_score_bounds (r : Rule) (k : ItemType) :
  0 <= spec_direct_score r k <= spec_direct_score r passed_t.
Proof. destruct r, k; cbn; lia. Qed.

Lemma spec_direct_score_top (r : Rule) (k : ItemType) :
  spec_direct_score r k = spec_direct_score r passed_t -> k = passed_t.
Proof. destruct r, k; cbn; intros H; try reflexivity; discriminate H. Qed.

Lemma direct_total_bounds (rs : list Rule) :
  forall its, map rule_of_item its = map Some rs ->
              0 <= direct_total its <= direct_cap rs.
Proof.
  induction rs as [|r rs IH]; intros [|it its] Hmap; try discriminate.
  - cbn. lia.
  - cbn in Hmap. injection Hmap as Hit Hrest.
    specialize (IH its Hrest).
    rewrite direct_total_cons, (item_direct_score_rule r it Hit).
    cbn [direct_cap].
    pose proof (spec_direct_score_bounds r (type it)). lia.
Qed.

Lemma direct_total_top (rs : list Rule) :
  forall its, map rule_of_item its = map Some rs ->
              (direct_total its = direct_cap rs
               <-> Forall (fun it => type it = passed_t) its).
Proof.
  induction rs as [|r rs IH]; intros [|it its] Hmap; try discriminate.
  - cbn. split; [constructor | reflexivity].
  - cbn in Hmap. injection Hmap as Hit Hrest.
    pose proof (direct_total_bounds rs its Hrest) as Hb.
    specialize (IH its Hrest).
    rewrite direct_total_cons, (item_direct_score_rule r it Hit).
    cbn [direct_cap].
    pose proof (spec_direct_score_bounds r (type it)) as Hr.
    split.
    + intros Heq. constructor.
      * apply (spec_direct_score_top r). lia.
      * apply IH. lia.
    + intros Hall. inversion Hall as [|? ? Hty Hrest']; subst.
      rewrite Hty. apply IH in Hrest'. lia.
Qed.

Lemma count_kind_bounds (k : ItemType) (its : list Item) :
  0 <= count_kind k its <= Z.of_nat (List.length its).
Proof.
  induction its as [|it its IH]; [cbn; lia|].
  rewrite count_kind_cons. cbn [List.length]. unfold kind_count.
  destruct (ItemType_eqb k (type it)); lia.
Qed.

Lemma count_passed_all (its : list Item) :
  count_kind passed_t its = Z.of_nat (List.length its)
  <-> Forall (fun it => type it = passed_t) its.
Proof.
  induction its as [|it its IH].
  - cbn. split; [constructor | reflexivity].
  - rewrite count_kind_cons. cbn [List.length].
    pose proof (count_kind_bounds passed_t its) as Hb.
    unfold kind_count. split.
    + intros Heq. destruct (type it) eqn:Hty; cbn [ItemType_eqb] in Heq; try lia.
      constructor; [exact Hty | apply IH; lia].
    + intros Hall. inversion Hall as [|? ? Hty Hrest]; subst.
      rewrite Hty. cbn [ItemType_eqb]. apply IH in Hrest. lia.
Qed.

Lemma analyzeSEO_score_range (m : MetaTags) (url : string) :
  0 <= an_score (analyzeSEO m url) <= 75
  /\ an_score (analyzeSEO m url)
     = st_score (run_checks rule_order m initial_state).
Proof.
  destruct (analyzeSEO_effect m url) as (its & _ & Heff).
  destruct Heff as (_ & Hrules & Hscore & _).
  pose proof (direct_total_bounds rule_order its Hrules) as Hb.
  cbn [direct_cap rule_order spec_direct_score] in Hb.
  rewrite analyzeSEO_run_checks. unfold result_of. cbn [an_score].
  rewrite Hscore. cbn [initial_state st_score]. lia.
Qed.

(** X8: the overall score lies between 0 and 75 for every record, so the
    clamp [Math.min(100, score)] never changes the accumulated score. *)
Theorem overall_score_at_most_75 (m : MetaTags) (url : string) :
  0 <= an_score (analyzeSEO m url) <= 75
  /\ an_score (analyzeSEO m url)
     = st_score (run_checks rule_order m initial_state).
Proof. exact (analyzeSEO_score_range m url). Qed.

(** X9: the overall score is 75 exactly when all eight checks pass, that
    is, when the [passed] counter is 8. *)
Theorem top_score_iff_all_passed (m : MetaTags) (url : string) :
  an_score (analyzeSEO m url) = 75 <-> an_passed (analyzeSEO m url) = 8.
Proof.
  destruct (analyzeSEO_effect m url) as (its & _ & Heff).
  destruct Heff as (_ & Hrules & Hscore & Hp & _).
  pose proof (direct_total_bounds rule_order its Hrules) as Hb.
  pose proof (direct_total_top rule_order its Hrules) as Htop.
  pose proof (count_passed_all its) as Hall.
  assert (Hlen : List.length its = 8%nat).
  { rewrite <- (length_map rule_of_item), Hrules. reflexivity. }
  rewrite Hlen in Hall.
  cbn [direct_cap rule_order spec_direct_score] in Hb, Htop.
  rewrite analyzeSEO_run_checks. unfold result_of. cbn [an_score an_passed].
  rewrite Hscore, Hp. cbn [initial_state st_score st_passed].
  split; intros H.
  - assert (Hd : direct_total its = 15 + (15 + (10 + (5 + (10 + (5 + (5 + (10 + 0))))))))
      by lia.
    apply Htop, Hall in Hd. lia.
  - assert (Hc : count_kind passed_t its = Z.of_nat 8) by lia.
    apply Hall, Htop in Hc. lia.
Qed.

(** ** Overall score against category scores *)

(** X10: for every record the four category scores add up to at least the
    overall score and to at most 15 more (5 for each of Open Graph, Twitter
    Card and viewport), and never to more than 90. *)
Theorem category_scores_against_overall_score (m : MetaTags) (url : string) :
  an_score (analyzeSEO m url)
  <= category_total (an_categoryScores (analyzeSEO m url))
  <= an_score (analyzeSEO m url) + 15
  /\ category_total (an_categoryScores (analyzeSEO m url)) <= 90.
Proof.
  destruct (analyzeSEO_score_range m url) as (Hrange & Hraw).
  rewrite Hraw. rewrite analyzeSEO_run_checks. unfold result_of.
  cbn [an_categoryScores].
  assert (Hgen : forall rs s,
             st_score (run_checks rs m s) - st_score s
             <= category_total (st_categoryScores (run_checks rs m s))
                - category_total (st_categoryScores s)
             <= st_score (run_checks rs m s) - st_score s
                + 5 * Z.of_nat (List.length
                                  (filter (fun r => match r with
                                                    | RuleOpenGraph | RuleTwitterCard
                                                    | RuleViewport => true
                                                    | _ => false
                                                    end) rs))).
  { induction rs as [|r rs IH]; intros s; cbn [run_checks].
    - cbn. lia.
    - specialize (IH (check_of r m s)).
      destruct (check_of_points r m s) as (Hs & Hc).
      pose proof (points_by_rule r m) as Hpts.
      destruct r; cbv beta iota in Hpts; cbn [filter List.length];
        try lia.
      + destruct (truthy (ogTitle m) && truthy (ogDescription m)); lia.
      + destruct (truthy (twitterCard m)); lia.
      + destruct (truthy (viewport m)); lia. }
  specialize (Hgen rule_order initial_state).
  cbn [rule_order filter List.length initial_state st_score st_categoryScores] in Hgen.
  change (category_total initial_categoryScores) with 0 in Hgen.
  rewrite Hraw in Hrange. lia.
Qed.

(** ** The items listed under each category *)

Ltac items_branch :=
  cbv zeta;
  lazymatch goal with
  | |- context [(push_analysis ?x ;; _) _] => exists x
  end;
  unfold seq; cbn;
  repeat match goal with
         | |- _ /\ _ => split
         | |- forall c : Category, _ => intros []; cbn
         end;
  solve [reflexivity | rewrite app_nil_r; reflexivity].

Lemma check_of_category_items (r : Rule) (m : MetaTags) (s : State) :
  exists it,
    st_analysis (check_of r m s) = (st_analysis s ++ [it])%list
    /\ rule_of_item it = Some r
    /\ (forall c, items (get_category c (st_categoryScores (check_of r m s)))
                  = (items (get_category c (st_categoryScores s))
                     ++ (if Category_eqb c (spec_category r) then [it] else []))%list).
Proof.
  destruct r; cbn [check_of spec_category].
  - unfold title_check. destruct (truthy (title m)) eqn:Ht.
    + destruct ((str_length (title m) >=? 30) && (str_length (title m) <=? 60)).
      * items_branch.
      * destruct (str_length (title m) >? 0) eqn:Hp.
        -- items_branch.
        -- apply truthy_length in Ht. rewrite Z.gtb_ltb in Hp.
           apply Z.ltb_ge in Hp. lia.
    + items_branch.
  - unfold description_check. destruct (truthy (description m)) eqn:Ht.
    + destruct ((str_length (description m) >=? 120)
                && (str_length (description m) <=? 160)).
      * items_branch.
      * destruct (str_length (description m) >? 0) eqn:Hp.
        -- items_branch.
        -- apply truthy_length in Ht. rewrite Z.gtb_ltb in Hp.
           apply Z.ltb_ge in Hp. lia.
    + items_branch.
  - unfold open_graph_check.
    destruct (truthy (ogTitle m) && truthy (ogDescription m)); items_branch.
  - unfold twitter_card_check. destruct (truthy (twitterCard m)); items_branch.
  - unfold canonical_check. destruct (truthy (canonical m)); items_branch.
  - unfold viewport_check. destruct (truthy (viewport m)); items_branch.
  - unfold language_check. destruct (truthy (language m)); items_branch.
  - unfold structured_data_check.
    destruct (arr_length (structuredData m) >? 0); items_branch.
Qed.

Lemma run_checks_category_items (m : MetaTags) (rs : list Rule) :
  forall s, exists its,
    st_analysis (run_checks rs m s) = (st_analysis s ++ its)%list
    /\ map rule_of_item its = map Some rs
    /\ (forall c, items (get_category c (st_categoryScores (run_checks rs m s)))
                  = (items (get_category c (st_categoryScores s))
                     ++ filter (item_in_category c) its)%list).
Proof.
  induction rs as [|r rs IH]; intros s.
  - exists []. cbn. rewrite app_nil_r. repeat split.
    intros c. now rewrite app_nil_r.
  - destruct (check_of_category_items r m s) as (it & Han & Hrule & Hitems).
    destruct (IH (check_of r m s)) as (its & Han' & Hrules & Hitems').
    exists (it :: its). cbn [run_checks]. repeat split.
    + rewrite Han', Han, <- app_assoc. reflexivity.
    + cbn. now rewrite Hrule, Hrules.
    + intros c. rewrite Hitems', Hitems, <- app_assoc. f_equal.
      cbn [filter]. unfold item_in_category at 2. rewrite Hrule.
      destruct (Category_eqb c (spec_category r)); reflexivity.
Qed.

Lemma filter_by_rules (c : Category) (rs : list Rule) :
  forall its, map rule_of_item its = map Some rs ->
    List.length (filter (item_in_category c) its)
    = List.length (filter (fun r => Category_eqb c (spec_category r)) rs).
Proof.
  induction rs as [|r rs IH]; intros [|it its] Hmap; try discriminate.
  - reflexivity.
  - cbn in Hmap. injection Hmap as Hit Hrest.
    cbn [filter]. unfold item_in_category at 1. rewrite Hit.
    destruct (Category_eqb c (spec_category r)); cbn [List.length];
      now rewrite (IH its Hrest).
Qed.

(** X11: in the returned object, the [items] of each category are exactly
    the returned items of the checks of that category, in the same order;
    there are 2 under basicSeo, 2 under socialMedia, 3 under technicalSeo
    and 1 under contentQuality, so every returned item is listed under
    exactly one category. *)
Theorem category_items_partition_the_items (m : MetaTags) (url : string) :
  (forall c, items (get_category c (an_categoryScores (analyzeSEO m url)))
             = filter (item_in_category c) (an_items (analyzeSEO m url)))
  /\ List.length (items (basicSeo (an_categoryScores (analyzeSEO m url)))) = 2%nat
  /\ List.length (items (socialMedia (an_categoryScores (analyzeSEO m url)))) = 2%nat
  /\ List.length (items (technicalSeo (an_categoryScores (analyzeSEO m url)))) = 3%nat
  /\ List.length (items (contentQuality (an_categoryScores (analyzeSEO m url)))) = 1%nat.
Proof.
  destruct (run_checks_category_items m rule_order initial_state)
    as (its & Han & Hrules & Hitems).
  rewrite analyzeSEO_run_checks. unfold result_of. cbn [an_categoryScores an_items].
  cbn [initial_state st_analysis app] in Han.
  assert (Hall : forall c,
             items (get_category c (st_categoryScores (run_checks rule_order m initial_state)))
             = filter (item_in_category c) its).
  { intros c. rewrite Hitems. destruct c; reflexivity. }
  rewrite Han. split; [exact Hall|].
  pose proof (Hall BasicSeo) as Hb. pose proof (Hall SocialMedia) as Hs.
  pose proof (Hall TechnicalSeo) as Ht. pose proof (Hall ContentQuality) as Hc.
  cbn [get_category] in Hb, Hs, Ht, Hc.
  rewrite Hb, Hs, Ht, Hc.
  rewrite !(fun c => filter_by_rules c rule_order its Hrules).
  repeat split; reflexivity.
Qed.

(** ** The scores in closed form *)

Lemma check_of_closed (r : Rule) (m : MetaTags) (s : State) :
  st_score (check_of r m s) = st_score s + check_direct_points r m
  /\ (forall c, score (get_category c (st_categoryScores (check_of r m s)))
                = score (get_category c (st_categoryScores s))
                  + (if Category_eqb c (spec_category r)
                     then check_category_points r m else 0))
  /\ (forall c, maxScore (get_category c (st_categoryScores (check_of r m s)))
                = maxScore (get_category c (st_categoryScores s))).
Proof.
  destruct r; cbn [check_of check_direct_points check_category_points spec_category];
    unfold length_points, present_points.
  - unfold title_check. destruct (truthy (title m)) eqn:Ht.
    + destruct ((str_length (title m) >=? 30) && (str_length (title m) <=? 60)).
      * unfold seq; cbn; repeat split; try intros []; cbn; lia.
      * destruct (str_length (title m) >? 0) eqn:Hp.
        -- unfold seq; cbn; repeat split; try intros []; cbn; lia.
        -- apply truthy_length in Ht. rewrite Z.gtb_ltb in Hp.
           apply Z.ltb_ge in Hp. lia.
    + unfold seq; cbn; repeat split; try intros []; cbn; lia.
  - unfold description_check. destruct (truthy (description m)) eqn:Ht.
    + destruct ((str_length (description m) >=? 120)
                && (str_length (description m) <=? 160)).
      * unfold seq; cbn; repeat split; try intros []; cbn; lia.
      * destruct (str_length (description m) >? 0) eqn:Hp.
        -- unfold seq; cbn; repeat split; try intros []; cbn; lia.
        -- apply truthy_length in Ht. rewrite Z.gtb_ltb in Hp.
           apply Z.ltb_ge in Hp. lia.
    + unfold seq; cbn; repeat split; try intros []; cbn; lia.
  - unfold open_graph_check.
    destruct (truthy (ogTitle m) && truthy (ogDescription m));
      unfold seq; cbn; repeat split; try intros []; cbn; lia.
  - unfold twitter_card_check. destruct (truthy (twitterCard m));
      unfold seq; cbn; repeat split; try intros []; cbn; lia.
  - unfold canonical_check. destruct (truthy (canonical m));
      unfold seq; cbn; repeat split; try intros []; cbn; lia.
  - unfold viewport_check. destruct (truthy (viewport m));
      unfold seq; cbn; repeat split; try intros []; cbn; lia.
  - unfold language_check. destruct (truthy (language m));
      unfold seq; cbn; repeat split; try intros []; cbn; lia.
  - unfold structured_data_check. destruct (arr_length (structuredData m) >? 0);
      unfold seq; cbn; repeat split; try intros []; cbn; lia.
Qed.

Lemma run_checks_closed (m : MetaTags) (rs : list Rule) :
  forall s,
    st_score (run_checks rs m s) = st_score s + sum_direct_points rs m
    /\ (forall c, score (get_category c (st_categoryScores (run_checks rs m s)))
                  = score (get_category c (st_categoryScores s))
                    + sum_category_points c rs m)
    /\ (forall c, maxScore (get_category c (st_categoryScores (run_checks rs m s)))
                  = maxScore (get_category c (st_categoryScores s))).
Proof.
  induction rs as [|r rs IH]; intros s; cbn [run_checks sum_direct_points sum_category_points].
  - repeat split; intros; lia.
  - destruct (IH (check_of r m s)) as (Hs & Hc & Hm).
    destruct (check_of_closed r m s) as (Hs1 & Hc1 & Hm1).
    repeat split.
    + rewrite Hs, Hs1. lia.
    + intros c. rewrite Hc, Hc1. lia.
    + intros c. now rewrite Hm, Hm1.
Qed.

Lemma analyzeSEO_closed_form (m : MetaTags) (url : string) :
  an_score (analyzeSEO m url)
  = length_points 30 60 (title m) + length_points 120 160 (description m)
    + present_points (truthy (ogTitle m) && truthy (ogDescription m)) 10
    + present_points (truthy (twitterCard m)) 5
    + present_points (truthy (canonical m)) 10
    + present_points (truthy (viewport m)) 5
    + present_points (truthy (language m)) 5
    + present_points (arr_length (structuredData m) >? 0) 10
  /\ score (basicSeo (an_categoryScores (analyzeSEO m url)))
     = length_points 30 60 (title m) + length_points 120 160 (description m)
  /\ score (socialMedia (an_categoryScores (analyzeSEO m url)))
     = present_points (truthy (ogTitle m) && truthy (ogDescription m)) 15
       + present_points (truthy (twitterCard m)) 10
  /\ score (technicalSeo (an_categoryScores (analyzeSEO m url)))
     = present_points (truthy (canonical m)) 10
       + present_points (truthy (viewport m)) 10
       + present_points (arr_length (structuredData m) >? 0) 10
  /\ score (contentQuality (an_categoryScores (analyzeSEO m url)))
     = present_points (truthy (language m)) 5.
Proof.
  destruct (run_checks_closed m rule_order initial_state) as (Hs & Hc & _).
  rewrite analyzeSEO_run_checks. unfold result_of. cbn [an_score an_categoryScores].
  pose proof (Hc BasicSeo) as Hb. pose proof (Hc SocialMedia) as Hso.
  pose proof (Hc TechnicalSeo) as Ht. pose proof (Hc ContentQuality) as Hq.
  cbn [get_category] in Hb, Hso, Ht, Hq.
  rewrite Hs, Hb, Hso, Ht, Hq.
  cbn [rule_order sum_direct_points sum_category_points check_direct_points
       check_category_points spec_category Category_eqb
       initial_state initial_categoryScores st_score st_categoryScores
       basicSeo socialMedia technicalSeo contentQuality score].
  unfold length_points, present_points.
  repeat split; try lia.
  destruct (truthy (title m)), (truthy (description m)),
    ((str_length (title m) >=? 30) && (str_length (title m) <=? 60)),
    ((str_length (description m) >=? 120) && (str_length (description m) <=? 160)),
    (truthy (ogTitle m) && truthy (ogDescription m)), (truthy (twitterCard m)),
    (truthy (canonical m)), (truthy (viewport m)), (truthy (language m)),
    (arr_length (structuredData m) >? 0); reflexivity.
Qed.

(** X12: the scores as formulas of the record.  The overall score is the
    sum of the title and description points (15 in range, 8 when present
    but out of range, 0 when missing) and of 10, 5, 10, 5, 5, 10 for the
    presence of Open Graph title and description, Twitter card, canonical
    URL, viewport, language and structured data; the category scores are
    the corresponding sums with 15, 10, 10, 10, 5, 10. *)
Theorem scores_closed_form (m : MetaTags) (url : string) :
  an_score (analyzeSEO m url)
  = length_points 30 60 (title m) + length_points 120 160 (description m)
    + present_points (truthy (ogTitle m) && truthy (ogDescription m)) 10
    + present_points (truthy (twitterCard m)) 5
    + present_points (truthy (canonical m)) 10
    + present_points (truthy (viewport m)) 5
    + present_points (truthy (language m)) 5
    + present_points (arr_length (structuredData m) >? 0) 10
  /\ score (basicSeo (an_categoryScores (analyzeSEO m url)))
     = length_points 30 60 (title m) + length_points 120 160 (description m)
  /\ score (socialMedia (an_categoryScores (analyzeSEO m url)))
     = present_points (truthy (ogTitle m) && truthy (ogDescription m)) 15
       + present_points (truthy (twitterCard m)) 10
  /\ score (technicalSeo (an_categoryScores (analyzeSEO m url)))
     = present_points (truthy (canonical m)) 10
       + present_points (truthy (viewport m)) 10
       + present_points (arr_length (structuredData m) >? 0) 10
  /\ score (contentQuality (an_categoryScores (analyzeSEO m url)))
     = present_points (truthy (language m)) 5.
Proof. exact (analyzeSEO_closed_form m url). Qed.

(** ** The category cards *)

Lemma analyzeSEO_maxScores (m : MetaTags) (url : string) :
  maxScore (basicSeo (an_categoryScores (analyzeSEO m url))) = 30
  /\ maxScore (socialMedia (an_categoryScores (analyzeSEO m url))) = 25
  /\ maxScore (technicalSeo (an_categoryScores (analyzeSEO m url))) = 30
  /\ maxScore (contentQuality (an_categoryScores (analyzeSEO m url))) = 15.
Proof.
  destruct (run_checks_closed m rule_order initial_state) as (_ & _ & Hmax).
  rewrite analyzeSEO_run_checks. unfold result_of. cbn [an_categoryScores].
  repeat split.
  - exact (Hmax BasicSeo).
  - exact (Hmax SocialMedia).
  - exact (Hmax TechnicalSeo).
  - exact (Hmax ContentQuality).
Qed.

Lemma card_status_of_percentage (id name : string) (data : CategoryScore) :
  card_status (category_card id name data)
  = status_of_percentage (category_percentage data)
  /\ card_percentage (category_card id name data) = category_percentage data.
Proof.
  unfold category_card, status_of_percentage.
  destruct (category_percentage data >=? 90); [split; reflexivity|].
  destruct (category_percentage data >=? 70); [split; reflexivity|].
  destruct (category_percentage data >=? 50); split; reflexivity.
Qed.

Lemma category_percentage_of (data : CategoryScore) (s mx : Z) :
  score data = s -> maxScore data = mx ->
  category_percentage data
  = Math_round ((inject_Z s / inject_Z mx) * inject_Z 100)
  /\ exact_percentage data = ((inject_Z s / inject_Z mx) * inject_Z 100)%Q.
Proof.
  unfold category_percentage, exact_percentage. intros -> ->. split; reflexivity.
Qed.

Lemma range_needs_truthy (s : string) (lo hi : Z) :
  0 < lo -> (str_length s >=? lo) && (str_length s <=? hi) = true -> truthy s = true.
Proof.
  intros Hlo Hr. apply range_test in Hr. apply truthy_length. lia.
Qed.

Lemma arr_length_positive {A : Type} (l : list A) :
  (arr_length l >? 0) = true <-> l <> [].
Proof.
  unfold arr_length. rewrite Z.gtb_ltb, Z.ltb_lt.
  destruct l; cbn [List.length]; split; intros H; try congruence; lia.
Qed.

(** The four cards, with the scores in closed form. *)
Lemma cards_closed_form (m : MetaTags) (url : string) :
  let cards := displayCategorySummaries (an_categoryScores (analyzeSEO m url)) in
  let basic := ((inject_Z (length_points 30 60 (title m)
                           + length_points 120 160 (description m))
                 / inject_Z 30) * inject_Z 100)%Q in
  let social := ((inject_Z (present_points (truthy (ogTitle m)
                                            && truthy (ogDescription m)) 15
                            + present_points (truthy (twitterCard m)) 10)
                  / inject_Z 25) * inject_Z 100)%Q in
  let technical := ((inject_Z (present_points (truthy (canonical m)) 10
                               + present_points (truthy (viewport m)) 10
                               + present_points (arr_length (structuredData m) >? 0) 10)
                     / inject_Z 30) * inject_Z 100)%Q in
  let content := ((inject_Z (present_points (truthy (language m)) 5)
                   / inject_Z 15) * inject_Z 100)%Q in
  map card_percentage cards
  = [Math_round basic; Math_round social; Math_round technical; Math_round content]
  /\ map card_status cards
     = [status_of_percentage (Math_round basic);
        status_of_percentage (Math_round social);
        status_of_percentage (Math_round technical);
        status_of_percentage (Math_round content)]
  /\ exact_percentage (basicSeo (an_categoryScores (analyzeSEO m url))) = basic
  /\ exact_percentage (socialMedia (an_categoryScores (analyzeSEO m url))) = social
  /\ exact_percentage (technicalSeo (an_categoryScores (analyzeSEO m url))) = technical
  /\ exact_percentage (contentQuality (an_categoryScores (analyzeSEO m url))) = content.
Proof.
  intros cards basic social technical content.
  destruct (analyzeSEO_closed_form m url) as (_ & Hb & Hs & Ht & Hc).
  destruct (analyzeSEO_maxScores m url) as (Mb & Ms & Mt & Mc).
  destruct (category_percentage_of _ _ _ Hb Mb) as (Pb & Eb).
  destruct (category_percentage_of _ _ _ Hs Ms) as (Ps & Es).
  destruct (category_percentage_of _ _ _ Ht Mt) as (Pt & Et).
  destruct (category_percentage_of _ _ _ Hc Mc) as (Pc & Ec).
  unfold cards, displayCategorySummaries. cbn [map].
  repeat match goal with
         | |- context [card_status (category_card ?i ?n ?d)] =>
             rewrite (proj1 (card_status_of_percentage i n d))
         | |- context [card_percentage (category_card ?i ?n ?d)] =>
             rewrite (proj2 (card_status_of_percentage i n d))
         end.
  rewrite Pb, Ps, Pt, Pc.
  repeat split; assumption.
Qed.

Ltac card_cases :=
  vm_compute; split; intros;
  repeat match goal with
         | H : _ /\ _ |- _ => destruct H
         end;
  try discriminate; try congruence; repeat split; try reflexivity.

(** X13: a category card reads "Excellent" exactly when every check of the
    category passes: title and description both within their ranges for
    Basic SEO, Open Graph title, Open Graph description and Twitter card
    all present for Social Media, canonical URL, viewport and structured
    data all present for Technical SEO. *)
Theorem card_excellent_iff_all_checks_pass (m : MetaTags) (url : string) :
  let cards := displayCategorySummaries (an_categoryScores (analyzeSEO m url)) in
  (status_at cards 0 = Some "Excellent"
   <-> 30 <= str_length (title m) <= 60 /\ 120 <= str_length (description m) <= 160)
  /\ (status_at cards 1 = Some "Excellent"
      <-> ogTitle m <> EmptyString /\ ogDescription m <> EmptyString
          /\ twitterCard m <> EmptyString)
  /\ (status_at cards 2 = Some "Excellent"
      <-> canonical m <> EmptyString /\ viewport m <> EmptyString
          /\ structuredData m <> []).
Proof.
  intros cards.
  destruct (cards_closed_form m url) as (_ & Hst & _).
  fold cards in Hst.
  assert (H0 : forall i, status_at cards i = nth_error (map card_status cards) i).
  { intros i. unfold status_at. now rewrite nth_error_map. }
  rewrite !H0, Hst. cbn [nth_error].
  rewrite <- (range_test (str_length (title m)) 30 60),
    <- (range_test (str_length (description m)) 120 160),
    <- !truthy_nonempty, <- arr_length_positive.
  pose proof (range_needs_truthy (title m) 30 60 ltac:(lia)) as Ft.
  pose proof (range_needs_truthy (description m) 120 160 ltac:(lia)) as Fd.
  unfold length_points, present_points.
  revert Ft Fd.
  destruct (truthy (title m)), (truthy (description m)),
    ((str_length (title m) >=? 30) && (str_length (title m) <=? 60)),
    ((str_length (description m) >=? 120) && (str_length (description m) <=? 160));
    intros Ft Fd;
    try (specialize (Ft eq_refl); discriminate Ft);
    try (specialize (Fd eq_refl); discriminate Fd);
    (split; [card_cases|]);
    destruct (truthy (ogTitle m)), (truthy (ogDescription m)), (truthy (twitterCard m));
    (split; [card_cases|]);
    destruct (truthy (canonical m)), (truthy (viewport m)),
      (arr_length (structuredData m) >? 0);
    card_cases.
Qed.

(** X14: the Content Quality card reads "Poor" for every record: its only
    check (language) is worth 5 of 15 points, so it shows 33 percent when
    the language is declared and 0 percent otherwise. *)
Theorem content_quality_card_is_always_poor (m : MetaTags) (url : string) :
  let cards := displayCategorySummaries (an_categoryScores (analyzeSEO m url)) in
  status_at cards 3 = Some "Poor"
  /\ percentage_at cards 3 = Some (if truthy (language m) then 33 else 0).
Proof.
  intros cards.
  destruct (cards_closed_form m url) as (Hp & Hst & _).
  fold cards in Hp, Hst.
  unfold status_at, percentage_at.
  rewrite <- !nth_error_map, Hp, Hst. cbn [nth_error].
  unfold present_points. destruct (truthy (language m)); split; reflexivity.
Qed.

(** X15: every percentage shown on a category card lies between 0 and 100,
    and it is within one third of the exact quotient, so the rounding is
    never decided by a tie. *)
Theorem card_percentages_in_range (m : MetaTags) (url : string) :
  Forall (fun card => 0 <= card_percentage card <= 100)
         (displayCategorySummaries (an_categoryScores (analyzeSEO m url)))
  /\ Forall (fun data => (inject_Z (category_percentage data) - (1 # 3)
                          <= exact_percentage data
                          <= inject_Z (category_percentage data) + (1 # 3))%Q)
            [basicSeo (an_categoryScores (analyzeSEO m url));
             socialMedia (an_categoryScores (analyzeSEO m url));
             technicalSeo (an_categoryScores (analyzeSEO m url));
             contentQuality (an_categoryScores (analyzeSEO m url))].
Proof.
  destruct (cards_closed_form m url) as (Hp & _ & Eb & Es & Et & Ec).
  cbv zeta in Hp.
  assert (Hle : forall a b : Q, Qle_bool a b = true -> (a <= b)%Q)
    by (intros a b; apply Qle_bool_iff).
  split.
  - apply Forall_map with (f := card_percentage) (P := fun p => 0 <= p <= 100).
    rewrite Hp. unfold length_points, present_points.
    destruct (truthy (title m)), (truthy (description m)),
      ((str_length (title m) >=? 30) && (str_length (title m) <=? 60)),
      ((str_length (description m) >=? 120) && (str_length (description m) <=? 160)),
      (truthy (ogTitle m) && truthy (ogDescription m)), (truthy (twitterCard m)),
      (truthy (canonical m)), (truthy (viewport m)), (truthy (language m)),
      (arr_length (structuredData m) >? 0);
      repeat constructor; discriminate.
  - unfold category_percentage. 
    change (fun data : CategoryScore =>
              (inject_Z (Math_round (inject_Z (score data) / inject_Z (maxScore data)
                                     * inject_Z 100)) - (1 # 3)
               <= exact_percentage data
               <= inject_Z (Math_round (inject_Z (score data) / inject_Z (maxScore data)
                                        * inject_Z 100)) + (1 # 3))%Q)
      with (fun data : CategoryScore =>
              (inject_Z (Math_round (exact_percentage data)) - (1 # 3)
               <= exact_percentage data
               <= inject_Z (Math_round (exact_percentage data)) + (1 # 3))%Q).
    repeat constructor; rewrite ?Eb, ?Es, ?Et, ?Ec;
      unfold length_points, present_points;
      repeat match goal with
             | |- context [if ?b then _ else _] => destruct b
             end;
      apply Hle; reflexivity.
Qed.

(** X16: the Social Media and Technical SEO cards never read "Good": their
    percentages are 0, 40, 60 or 100 and 0, 33, 67 or 100. *)
Theorem social_and_technical_cards_never_good (m : MetaTags) (url : string) :
  let cards := displayCategorySummaries (an_categoryScores (analyzeSEO m url)) in
  status_at cards 1 <> Some "Good"
  /\ status_at cards 2 <> Some "Good"
  /\ (exists p, percentage_at cards 1 = Some p /\ In p [0; 40; 60; 100])
  /\ (exists p, percentage_at cards 2 = Some p /\ In p [0; 33; 67; 100]).
Proof.
  intros cards.
  destruct (cards_closed_form m url) as (Hp & Hst & _).
  fold cards in Hp, Hst.
  unfold status_at, percentage_at.
  rewrite <- !nth_error_map, Hp, Hst. cbn [nth_error].
  unfold present_points.
  destruct (truthy (ogTitle m) && truthy (ogDescription m)), (truthy (twitterCard m)),
    (truthy (canonical m)), (truthy (viewport m)),
    (arr_length (structuredData m) >? 0);
    (split; [vm_compute; discriminate|]);
    (split; [vm_compute; discriminate|]);
    split; eexists; (split; [reflexivity|]); vm_compute; tauto.
Qed.

(** ** The previews *)

Lemma js_or_truthy (a b : string) : truthy b = true -> truthy (js_or a b) = true.
Proof. unfold js_or. destruct (truthy a) eqn:Ha; [now rewrite Ha | trivial]. Qed.

(** X17: none of the texts and image markups written into the Google,
    Facebook and Twitter previews is ever empty, and for a page without
    Twitter-specific title, description and image the Twitter preview shows
    the title, description and image of the Facebook preview. *)
Theorem previews_never_empty (metaTags : MetaTags) (url domain : string) :
  let p := previews metaTags url domain in
  (truthy (googleTitle p) = true /\ truthy (googleDescription p) = true
   /\ truthy (facebookTitle p) = true /\ truthy (facebookDescription p) = true
   /\ truthy (facebookImage p) = true
   /\ truthy (twitterTitlePreview p) = true
   /\ truthy (twitterDescriptionPreview p) = true
   /\ truthy (twitterImagePreview p) = true)
  /\ (twitterTitle metaTags = EmptyString -> twitterTitlePreview p = facebookTitle p)
  /\ (twitterDescription metaTags = EmptyString ->
      twitterDescriptionPreview p = facebookDescription p)
  /\ (twitterImage metaTags = EmptyString -> twitterImagePreview p = facebookImage p).
Proof.
  intros p. unfold p, previews.
  cbn [googleTitle googleDescription facebookTitle facebookDescription facebookImage
       twitterTitlePreview twitterDescriptionPreview twitterImagePreview].
  split.
  - repeat split; repeat (apply js_or_truthy); try reflexivity.
    + destruct (truthy (ogImage metaTags)); reflexivity.
    + destruct (truthy (js_or (twitterImage metaTags) (ogImage metaTags))); reflexivity.
  - repeat split; intros ->; reflexivity.
Qed.

(** ** One run of [analyzeWebsite] *)

Lemma analyzeWebsite_split (browser : Browser) (p : Page) :
  analyzeWebsite browser p
  = match analyzeWebsite_until_await browser p with
    | Finished p' => p'
    | Awaiting url p' => analyzeWebsite_after_await browser url p'
    end.
Proof.
  unfold analyzeWebsite, analyzeWebsite_until_await, analyzeWebsite_after_await.
  destruct (truthy (trim (urlInput_value p))); cbn [negb]; [|reflexivity].
  destruct (isValidUrl browser (normalizeUrl (trim (urlInput_value p))));
    reflexivity.
Qed.

(** X18: the error box and the results container across the [await] of
    [analyzeWebsite].  A run that stops at an input check ends with the
    error box displayed and the results hidden; a run that reaches the
    request is suspended with both hidden.  Resumed on any page, the second
    half ends with the results hidden and the error displayed when the
    request failed, and with the results displayed and the error box left
    as it was found when the request succeeded.  So a run resumed on the
    page as it left it never ends with both displayed, whereas a run during
    whose request another run stopped on an emptied input ends with both
    displayed. *)
Theorem error_box_and_results_across_the_await :
  (forall browser p p',
      analyzeWebsite_until_await browser p = Finished p' ->
      analyzeWebsite browser p = p'
      /\ errorMessage_display p' = "block" /\ resultsContainer_display p' = "none")
  /\ (forall browser p url p',
        analyzeWebsite_until_await browser p = Awaiting url p' ->
        analyzeWebsite browser p = analyzeWebsite_after_await browser url p'
        /\ errorMessage_display p' = "none" /\ resultsContainer_display p' = "none"
        /\ ~ (errorMessage_display (analyzeWebsite_after_await browser url p') = "block"
              /\ resultsContainer_display (analyzeWebsite_after_await browser url p')
                 = "block"))
  /\ (forall browser url q,
        fetchWebsiteContent browser url = None ->
        errorMessage_display (analyzeWebsite_after_await browser url q) = "block"
        /\ resultsContainer_display (analyzeWebsite_after_await browser url q) = "none")
  /\ (forall browser url q,
        fetchWebsiteContent browser url <> None ->
        errorMessage_display (analyzeWebsite_after_await browser url q)
        = errorMessage_display q
        /\ resultsContainer_display (analyzeWebsite_after_await browser url q) = "block")
  /\ (forall browser p url p',
        analyzeWebsite_until_await browser p = Awaiting url p' ->
        fetchWebsiteContent browser url <> None ->
        let q := analyzeWebsite browser (set_urlInput EmptyString p') in
        errorMessage_display (analyzeWebsite_after_await browser url q) = "block"
        /\ resultsContainer_display (analyzeWebsite_after_await browser url q)
           = "block").
Proof.
  split; [|split; [|split; [|split]]].
  - intros browser p p' H. rewrite analyzeWebsite_split, H.
    split; [reflexivity|].
    unfold analyzeWebsite_until_await in H.
    destruct (truthy (trim (urlInput_value p))); cbn [negb] in H.
    + destruct (isValidUrl browser (normalizeUrl (trim (urlInput_value p))));
        cbn [negb] in H; [discriminate H|].
      injection H as <-. split; reflexivity.
    + injection H as <-. split; reflexivity.
  - intros browser p url p' H. rewrite analyzeWebsite_split, H.
    split; [reflexivity|].
    unfold analyzeWebsite_until_await in H.
    destruct (truthy (trim (urlInput_value p))); cbn [negb] in H; [|discriminate H].
    destruct (isValidUrl browser (normalizeUrl (trim (urlInput_value p))));
      cbn [negb] in H; [|discriminate H].
    injection H as <- <-.
    split; [reflexivity|]. split; [reflexivity|].
    unfold analyzeWebsite_after_await.
    destruct (fetchWebsiteContent browser (normalizeUrl (trim (urlInput_value p))));
      cbn; intros (He & Hr); discriminate.
  - intros browser url q H. unfold analyzeWebsite_after_await. rewrite H.
    split; reflexivity.
  - intros browser url q H. unfold analyzeWebsite_after_await.
    destruct (fetchWebsiteContent browser url); [|congruence].
    split; reflexivity.
  - intros browser p url p' _ H q. unfold analyzeWebsite_after_await.
    destruct (fetchWebsiteContent browser url); [|congruence].
    split; reflexivity.
Qed.

Lemma error_box_and_results_across_the_await_witness :
  (analyzeWebsite_until_await (static_browser full_tags) (fresh_page "e.com")
   = Awaiting "https://e.com"
       (record_fetch "https://e.com"
          (hideError (showLoading (set_urlInput "https://e.com" (fresh_page "e.com")))))
   /\ fetchWebsiteContent (static_browser full_tags) "https://e.com" <> None)
  /\ (let p' := record_fetch "https://e.com"
                   (hideError (showLoading (set_urlInput "https://e.com"
                                                         (fresh_page "e.com")))) in
      let q := analyzeWebsite (static_browser full_tags) (set_urlInput EmptyString p') in
      errorMessage_display
        (analyzeWebsite_after_await (static_browser full_tags) "https://e.com" q)
      = "block"
      /\ resultsContainer_display
           (analyzeWebsite_after_await (static_browser full_tags) "https://e.com" q)
         = "block").
Proof.
  split.
  - split; [reflexivity | discriminate].
  - refine (proj2 (proj2 (proj2 (proj2 error_box_and_results_across_the_await)))
              (static_browser full_tags) (fresh_page "e.com") "https://e.com" _ _ _).
    + reflexivity.
    + discriminate.
Defined.

(** X19: a run fetches at most one URL, and only a URL that starts with
    [http://] or [https://], that [isValidUrl] accepts and that is the
    normalised input; when the input is blank, nothing is fetched and the
    message "Please enter a valid URL" is shown. *)
Theorem only_valid_normalised_urls_are_fetched (browser : Browser) (p : Page) :
  (fetched (analyzeWebsite browser p) = fetched p
   \/ (fetched (analyzeWebsite browser p)
       = (fetched p ++ [normalizeUrl (urlInput_value p)])%list
       /\ matches_http_scheme (normalizeUrl (urlInput_value p)) = true
       /\ isValidUrl browser (normalizeUrl (urlInput_value p)) = true))
  /\ (all_whitespace (urlInput_value p) = true ->
      fetched (analyzeWebsite browser p) = fetched p
      /\ errorText (analyzeWebsite browser p) = "Please enter a valid URL"
      /\ errorMessage_display (analyzeWebsite browser p) = "block").
Proof.
  assert (Hn : normalizeUrl (trim (urlInput_value p)) = normalizeUrl (urlInput_value p)).
  { unfold normalizeUrl. now rewrite trim_idempotent. }
  unfold analyzeWebsite. rewrite Hn. split.
  - destruct (truthy (trim (urlInput_value p))); cbn [negb]; [|now left].
    destruct (isValidUrl browser (normalizeUrl (urlInput_value p))) eqn:Hv;
      cbn [negb]; [|now left].
    right. split; [|split; [apply normalizeUrl_scheme | reflexivity]].
    destruct (fetchWebsiteContent browser (normalizeUrl (urlInput_value p)));
      reflexivity.
  - intros Hblank. unfold trim.
    rewrite (trimStart_all_whitespace _ Hblank). cbn. repeat split.
Qed.

(** X20: a run either stops at the input check, leaving the loading
    indicator, the button and the list of requests as they were, or it ends
    with the loading indicator hidden and the button enabled, whether the
    request succeeded or failed. *)
Theorem run_ends_with_loading_hidden (browser : Browser) (p : Page) :
  (loading_display (analyzeWebsite browser p) = loading_display p
   /\ analyzeBtn_disabled (analyzeWebsite browser p) = analyzeBtn_disabled p
   /\ fetched (analyzeWebsite browser p) = fetched p
   /\ errorMessage_display (analyzeWebsite browser p) = "block")
  \/ (loading_display (analyzeWebsite browser p) = "none"
      /\ analyzeBtn_disabled (analyzeWebsite browser p) = false
      /\ fetched (analyzeWebsite browser p) <> fetched p).
Proof.
  unfold analyzeWebsite.
  destruct (truthy (trim (urlInput_value p))); cbn [negb];
    [| left; repeat split].
  destruct (isValidUrl browser (normalizeUrl (trim (urlInput_value p)))); cbn [negb];
    [| left; repeat split].
  right.
  assert (Hne : forall (l : list string) (x : string), (l ++ [x])%list <> l).
  { intros l x H. apply (f_equal (@List.length string)) in H.
    rewrite length_app in H. cbn in H. lia. }
  destruct (fetchWebsiteContent browser (normalizeUrl (trim (urlInput_value p))));
    cbn; repeat split; apply Hne.
Qed.

Lemma scheme_is_truthy (url : string) :
  matches_http_scheme url = true -> truthy url = true.
Proof. destruct url; [discriminate | reflexivity]. Qed.

Lemma analyzeWebsite_valid (browser : Browser) (p : Page) :
  truthy (trim (urlInput_value p)) = true ->
  isValidUrl browser (normalizeUrl (urlInput_value p)) = true ->
  urlInput_value (analyzeWebsite browser p) = normalizeUrl (urlInput_value p)
  /\ fetched (analyzeWebsite browser p)
     = (fetched p ++ [normalizeUrl (urlInput_value p)])%list.
Proof.
  intros Ht Hv.
  assert (Hn : normalizeUrl (trim (urlInput_value p)) = normalizeUrl (urlInput_value p)).
  { unfold normalizeUrl. now rewrite trim_idempotent. }
  unfold analyzeWebsite. rewrite Ht, Hn, Hv. cbn [negb].
  destruct (fetchWebsiteContent browser (normalizeUrl (urlInput_value p)));
    split; reflexivity.
Qed.

(** X21: when a run passes the input checks, it writes the normalised URL
    back into the input, and running again on the resulting page fetches
    exactly the same URL a second time. *)
Theorem rerun_fetches_the_same_url (browser : Browser) (p : Page)
  (Hinput : truthy (trim (urlInput_value p)) = true)
  (Hvalid : isValidUrl browser (normalizeUrl (urlInput_value p)) = true) :
  urlInput_value (analyzeWebsite browser p) = normalizeUrl (urlInput_value p)
  /\ fetched (analyzeWebsite browser (analyzeWebsite browser p))
     = (fetched p ++ [normalizeUrl (urlInput_value p);
                      normalizeUrl (urlInput_value p)])%list
  /\ urlInput_value (analyzeWebsite browser (analyzeWebsite browser p))
     = normalizeUrl (urlInput_value p).
Proof.
  destruct (analyzeWebsite_valid browser p Hinput Hvalid) as (Hu & Hf).
  set (u := normalizeUrl (urlInput_value p)) in *.
  assert (Ht2 : truthy (trim (urlInput_value (analyzeWebsite browser p))) = true).
  { rewrite Hu. unfold u. rewrite normalizeUrl_trimmed.
    apply scheme_is_truthy, normalizeUrl_scheme. }
  assert (Hv2 : isValidUrl browser
                  (normalizeUrl (urlInput_value (analyzeWebsite browser p))) = true).
  { rewrite Hu. unfold u. rewrite normalizeUrl_fixed. exact Hvalid. }
  destruct (analyzeWebsite_valid browser (analyzeWebsite browser p) Ht2 Hv2)
    as (Hu2 & Hf2).
  rewrite Hu in Hu2, Hf2. unfold u in Hu2, Hf2. rewrite normalizeUrl_fixed in Hu2, Hf2.
  fold u in Hu2, Hf2.
  split; [exact Hu|]. split; [|exact Hu2].
  rewrite Hf2, Hf, <- app_assoc. reflexivity.
Qed.

Lemma rerun_fetches_the_same_url_witness :
  (truthy (trim (urlInput_value (fresh_page " example.com"))) = true
   /\ isValidUrl offline_browser
        (normalizeUrl (urlInput_value (fresh_page " example.com"))) = true)
  /\ (urlInput_value (analyzeWebsite offline_browser (fresh_page " example.com"))
      = normalizeUrl (urlInput_value (fresh_page " example.com"))
      /\ fetched (analyzeWebsite offline_browser
                    (analyzeWebsite offline_browser (fresh_page " example.com")))
         = (fetched (fresh_page " example.com")
            ++ [normalizeUrl (urlInput_value (fresh_page " example.com"));
                normalizeUrl (urlInput_value (fresh_page " example.com"))])%list
      /\ urlInput_value (analyzeWebsite offline_browser
                           (analyzeWebsite offline_browser (fresh_page " example.com")))
         = normalizeUrl (urlInput_value (fresh_page " example.com"))).
Proof.
  split.
  - split; reflexivity.
  - apply (rerun_fetches_the_same_url offline_browser (fresh_page " example.com"));
      reflexivity.
Defined.

Example analyzeWebsite_runs :
  fetched (analyzeWebsite offline_browser (fresh_page " example.com"))
  = ["https://example.com"]
  /\ errorText (analyzeWebsite offline_browser (fresh_page " example.com"))
     = "Unable to analyze the website. Please check the URL and try again."
  /\ fetched (analyzeWebsite offline_browser (fresh_page "   ")) = []
  /\ option_map (fun r => an_score (snd (fst r)))
                (shown (analyzeWebsite (static_browser full_tags)
                                       (fresh_page "e.com")))
     = Some 75
  /\ resultsContainer_display (analyzeWebsite (static_browser full_tags)
                                              (fresh_page "e.com")) = "block".
Proof. repeat split; reflexivity. Qed.
